(** * Klipper Binary Analyzer: the firmware image analysis engine

    A shallow embedding of the analysis functions of [klipper_analyzer.py]
    (vector table validation, link base resolution, dictionary location,
    offset classification) and the properties established about them.

    Python integers are unbounded, so every integer is a [Z]; a [bytes]
    object is a [list byte]; a raised exception is the [Raise] branch of
    [result]. *)

From Stdlib Require Import ZArith List Lia Bool String Ascii.
From Stdlib Require Import Strings.Byte Sorting.Sorted.
Import ListNotations.
Local Open Scope Z_scope.
Set Warnings "-register-all".

(** ** Exceptions *)

(** The exception classes the analysis functions can meet.  All of them
    derive from Python's [Exception]. *)
Inductive exn : Type :=
| StructError
| IndexError
| ZlibError
| UnicodeDecodeError
| JSONDecodeError
| AttributeError
| TypeError
| ValueError
| RecursionError.

Inductive result (A : Type) : Type :=
| Ok (a : A)
| Raise (e : exn).

Arguments Ok {A} a.
Arguments Raise {A} e.

Definition bind {A B : Type} (c : result A) (k : A -> result B) : result B :=
  match c with
  | Ok a => k a
  | Raise e => Raise e
  end.

Notation "x <- c ;; k" := (bind c (fun x => k))
  (at level 61, c at next level, right associativity).

(** ** Bytes *)

Definition bytes := list byte.

Definition len (data : bytes) : Z := Z.of_nat (List.length data).

Definition byte_val (b : byte) : Z := Z.of_N (Byte.to_N b).

Definition byte_of_Z (v : Z) : byte :=
  match Byte.of_N (Z.to_N (v mod 256)) with
  | Some b => b
  | None => x00
  end.

(** Little-endian value of a run of bytes. *)
Fixpoint le_word (bs : bytes) : Z :=
  match bs with
  | [] => 0
  | b :: rest => byte_val b + 256 * le_word rest
  end.

(** The [n] little-endian bytes of [v]. *)
Fixpoint le_bytes (n : nat) (v : Z) : bytes :=
  match n with
  | O => []
  | S k => byte_of_Z v :: le_bytes k (v / 256)
  end.

(** [struct.unpack_from('<I', data, offset)[0]]: a negative offset counts
    from the end of the buffer; fewer than four bytes at the offset raise
    [struct.error]. *)
Definition unpack_from_I (data : bytes) (offset : Z) : result Z :=
  let off := if offset <? 0 then offset + len data else offset in
  if (off <? 0) || (len data - off <? 4) then Raise StructError
  else Ok (le_word (firstn 4 (skipn (Z.to_nat off) data))).

(** [struct.pack('<I', v)]: a value outside [0, 2^32) raises
    [struct.error]. *)
Definition pack_I (v : Z) : result bytes :=
  if (v <? 0) || (0xFFFFFFFF <? v) then Raise StructError
  else Ok (le_bytes 4 v).

Definition byte_eqb (a b : byte) : bool := Byte.eqb a b.

Fixpoint starts_with (needle data : bytes) : bool :=
  match needle, data with
  | [], _ => true
  | _ :: _, [] => false
  | n :: needle', d :: data' => byte_eqb n d && starts_with needle' data'
  end.

(** [data.count(needle)] for a non-empty needle: the number of
    non-overlapping occurrences, scanning from the left.  [skip] is the
    number of bytes of the last match still to be stepped over. *)
Fixpoint count_from (needle : bytes) (skip : nat) (data : bytes) : Z :=
  match data with
  | [] => 0
  | _ :: rest =>
      match skip with
      | S k => count_from needle k rest
      | O =>
          if starts_with needle data
          then 1 + count_from needle (List.length needle - 1) rest
          else count_from needle 0 rest
      end
  end.

Definition bytes_count (data needle : bytes) : Z := count_from needle 0 data.

(** [needle] occurs in [data] as a contiguous run. *)
Definition occurs (needle data : bytes) : Prop :=
  exists pre post, data = pre ++ needle ++ post.

(** ** Constants *)

Definition FLASH_BASE : Z := 0x08000000.

Definition KNOWN_OFFSETS : list (Z * Z * string) :=
  [ (0x0000,  0, "No bootloader (direct flash)"%string);
    (0x1000,  4, "Minimal / custom 4 KiB bootloader"%string);
    (0x2000,  8, "HID / stm32duino bootloader"%string);
    (0x3000, 12, "Creality K1 / K1 SE / K1 Max (GD32F303)"%string);
    (0x5000, 20, "DFU 20 KiB (uncommon)"%string);
    (0x7000, 28, "Creality/Klipper custom 28 KiB bootloader"%string);
    (0x8000, 32, "DFU 32 KiB standard"%string) ].

Definition KNOWN_BL_OFFSETS : list Z :=
  [0x0000; 0x1000; 0x2000; 0x3000; 0x5000; 0x7000; 0x8000].

(** ** Vector table *)

Definition u32le (data : bytes) (offset : Z) : result Z :=
  unpack_from_I data offset.

(** The dictionary built by [analyze_vector_table]. *)
Record vector_table : Type := {
  msp : Z;
  reset : Z;
  thumb : Z;
  reset_addr : Z;
  msp_ok : bool;
  flash_ok : bool
}.

Definition analyze_vector_table (data : bytes) : result vector_table :=
  msp <- u32le data 0 ;;
  reset <- u32le data 4 ;;
  let thumb := Z.land reset 1 in
  let addr := Z.land reset 0xFFFFFFFE in
  let msp_ok := (0x20000000 <=? msp) && (msp <=? 0x20020000) in
  let flash_ok := (FLASH_BASE <=? addr) && (addr <? FLASH_BASE + 0x80000) in
  Ok {| msp := msp; reset := reset; thumb := thumb;
        reset_addr := addr; msp_ok := msp_ok; flash_ok := flash_ok |}.

(** Truth value of a Python integer. *)
Definition truthy (v : Z) : bool := negb (v =? 0).

(** The top-level validity test of the report: the first branch of the
    verdict in [render_html] is taken when this is [false]. *)
Definition vt_plausible (vt : vector_table) : bool :=
  negb (negb (msp_ok vt) || negb (flash_ok vt) || negb (truthy (thumb vt))).

(** [is_valid_vt]; the returned value is only ever tested for truth, so the
    model returns the truth value of [msp_ok and flash_ok and (reset & 1)]. *)
Definition is_valid_vt (data : bytes) (offset : Z) : result bool :=
  if offset + 8 >? len data then Ok false
  else
    msp <- u32le data offset ;;
    reset <- u32le data (offset + 4) ;;
    let msp_ok := (0x20000000 <=? msp) && (msp <=? 0x20020000) in
    let flash_ok := (FLASH_BASE <=? Z.land reset 0xFFFFFFFE)
                    && (Z.land reset 0xFFFFFFFE <? FLASH_BASE + 0x80000) in
    Ok (msp_ok && flash_ok && truthy (Z.land reset 1)).

(** ** Link base resolver *)

(** The [for off in KNOWN_BL_OFFSETS[1:]] loop: the first offset holding a
    valid table; [vt_file_offset] keeps its initial 0 when the loop ends
    without a [break]. *)
Fixpoint vt_scan (data : bytes) (offs : list Z) : result Z :=
  match offs with
  | [] => Ok 0
  | off :: rest =>
      v <- is_valid_vt data off ;;
      if v then Ok off else vt_scan data rest
  end.

(** The value of the local [vt_file_offset] after the first block of
    [find_link_base]. *)
Definition vt_file_offset (data : bytes) : result Z :=
  v0 <- is_valid_vt data 0 ;;
  if negb v0 then vt_scan data (tl KNOWN_BL_OFFSETS) else Ok 0.

(** The [for bl_offset in KNOWN_BL_OFFSETS] loop of the primary method;
    [Some link_base] is the early [return], [None] is falling out of the
    loop. *)
Fixpoint xref_scan (data : bytes) (dict_file_offset vt : Z) (offs : list Z)
  : result (option Z) :=
  match offs with
  | [] => Ok None
  | bl_offset :: rest =>
      let link_base := FLASH_BASE + bl_offset in
      let dict_flash_addr := link_base + dict_file_offset - vt in
      needle <- pack_I dict_flash_addr ;;
      if bytes_count data needle >? 0 then Ok (Some link_base)
      else xref_scan data dict_file_offset vt rest
  end.

Definition find_link_base (data : bytes) (dict_file_offset : option Z)
  : result Z :=
  vt <- vt_file_offset data ;;
  primary <- match dict_file_offset with
             | Some d => xref_scan data d vt KNOWN_BL_OFFSETS
             | None => Ok None
             end ;;
  match primary with
  | Some link_base => Ok link_base
  | None =>
      if vt >? 0 then Ok (FLASH_BASE + vt)
      else
        w <- u32le data 4 ;;
        let reset := Z.land w 0xFFFFFFFE in
        Ok (Z.land reset 0xFFFFF000)
  end.

(** [bl_offset] as [main] derives it: absent when [link_base] is falsy. *)
Definition bootloader_offset (link_base : Z) : option Z :=
  if truthy link_base then Some (link_base - FLASH_BASE) else None.

(** ** Offset classifier *)

Fixpoint offset_label_scan (tbl : list (Z * Z * string)) (bl_offset : Z)
  : Z * string :=
  match tbl with
  | [] => (bl_offset / 1024, "Non-standard offset"%string)
  | (off, kib, label) :: rest =>
      if off =? bl_offset then (kib, label)
      else offset_label_scan rest bl_offset
  end.

Definition offset_label (bl_offset : Z) : Z * string :=
  offset_label_scan KNOWN_OFFSETS bl_offset.

(** ** Python values *)

(** A Python [str]: its sequence of code points. *)
Definition str := list Z.

(** The [str] of an ASCII literal. *)
Definition str_lit (s : string) : str :=
  map (fun a => Z.of_nat (nat_of_ascii a)) (list_ascii_of_string s).

Fixpoint str_eqb (a b : str) : bool :=
  match a, b with
  | [], [] => true
  | x :: a', y :: b' => (x =? y) && str_eqb a' b'
  | _, _ => false
  end.

Fixpoint str_prefix (sub s : str) : bool :=
  match sub, s with
  | [], _ => true
  | _ :: _, [] => false
  | x :: sub', y :: s' => (x =? y) && str_prefix sub' s'
  end.

(** [sub in s] for two strings. *)
Fixpoint str_contains (sub s : str) : bool :=
  str_prefix sub s ||
  match s with
  | [] => false
  | _ :: s' => str_contains sub s'
  end.

(** What [json.loads] can return.  A [float] is kept as the text of its
    literal: nothing in the analysis computes with one.  A [dict] is its
    items in insertion order, keys distinct. *)
Inductive json : Type :=
| JNull
| JBool (b : bool)
| JInt (n : Z)
| JFloat (lit : str)
| JStr (s : str)
| JList (l : list json)
| JDict (d : list (str * json)).

Fixpoint dict_lookup (d : list (str * json)) (k : str) : option json :=
  match d with
  | [] => None
  | (k', v) :: rest => if str_eqb k' k then Some v else dict_lookup rest k
  end.

(** [d[k] = v] on the items of a dict. *)
Fixpoint dict_set (d : list (str * json)) (k : str) (v : json)
  : list (str * json) :=
  match d with
  | [] => [(k, v)]
  | (k', v') :: rest =>
      if str_eqb k' k then (k', v) :: rest else (k', v') :: dict_set rest k v
  end.

(** [obj.get(key, default)]: only a dict has the method. *)
Definition py_get (obj : json) (key : str) (default : json) : result json :=
  match obj with
  | JDict d =>
      Ok (match dict_lookup d key with Some v => v | None => default end)
  | _ => Raise AttributeError
  end.

(** [k in cfg] for a string [k]: key membership in a dict, element equality
    in a list, substring in a string; the other values are not containers. *)
Definition py_in (k : str) (cfg : json) : result bool :=
  match cfg with
  | JDict d => Ok (match dict_lookup d k with Some _ => true | None => false end)
  | JList l =>
      Ok (existsb (fun e => match e with JStr s => str_eqb k s | _ => false end) l)
  | JStr s => Ok (str_contains k s)
  | _ => Raise TypeError
  end.

(** [any(k in cfg for k in keys)], evaluated lazily from the left. *)
Fixpoint any_in (keys : list str) (cfg : json) : result bool :=
  match keys with
  | [] => Ok false
  | k :: rest =>
      b <- py_in k cfg ;;
      if b then Ok true else any_in rest cfg
  end.

(** ** Library interface *)

(** The standard-library calls made by [extract_dictionary]:
    [zlib.decompressobj().decompress(b)], [b.decode('utf-8')], [s.strip()]
    and [json.loads(s)]. *)
Class PyLib : Type := {
  zlib_decompress : bytes -> result bytes;
  decode_utf8 : bytes -> result str;
  str_strip : str -> str;
  json_loads : str -> result json
}.

(** ** Dictionary locator *)

(** [range(lo, hi)]. *)
Definition range (lo hi : Z) : list Z :=
  map (fun k => lo + Z.of_nat k) (seq 0 (Z.to_nat (hi - lo))).

(** [data[i]]: a negative index counts from the end. *)
Definition getitem (data : bytes) (i : Z) : result Z :=
  let j := if i <? 0 then i + len data else i in
  if (j <? 0) || (len data <=? j) then Raise IndexError
  else match nth_error data (Z.to_nat j) with
       | Some b => Ok (byte_val b)
       | None => Raise IndexError
       end.

(** [data[i:]]. *)
Definition slice_from (data : bytes) (i : Z) : bytes :=
  let j := if i <? 0 then Z.max (i + len data) 0 else i in
  skipn (Z.to_nat j) data.

Definition MARKER_KEYS : list str :=
  [str_lit "MCU"; str_lit "CLOCK_FREQ"; str_lit "SERIAL_BAUD"].

Definition ZLIB_SECOND_BYTES : list Z := [0x01; 0x5e; 0x9c; 0xda].

Definition in_tuple (v : Z) (t : list Z) : bool := existsb (Z.eqb v) t.

Section Locator.

Context {lib : PyLib}.

(** The body of the [try]: [Ok (Some obj)] reaches [return obj, i],
    [Ok None] is the marker test failing, [Raise] an exception. *)
Definition try_candidate (data : bytes) (i : Z) : result (option json) :=
  raw <- zlib_decompress (slice_from data i) ;;
  text <- decode_utf8 raw ;;
  obj <- json_loads (str_strip text) ;;
  cfg <- py_get obj (str_lit "config") obj ;;
  found <- any_in MARKER_KEYS cfg ;;
  Ok (if found then Some obj else None).

(** The signature test of the loop, [true] when the position is passed
    over by [continue]; [or] evaluates [data[i+1]] only when [data[i]]
    is 0x78. *)
Definition no_signature (data : bytes) (i : Z) : result bool :=
  b0 <- getitem data i ;;
  if negb (b0 =? 0x78) then Ok true
  else
    b1 <- getitem data (i + 1) ;;
    Ok (negb (in_tuple b1 ZLIB_SECOND_BYTES)).

(** The [for i in ...] loop over the positions [positions]; the handler
    [except Exception: pass] resumes the loop. *)
Fixpoint extract_scan (data : bytes) (positions : list Z)
  : result (option (json * Z)) :=
  match positions with
  | [] => Ok None
  | i :: rest =>
      skip <- no_signature data i ;;
      if skip then extract_scan data rest
      else
        match try_candidate data i with
        | Ok (Some obj) => Ok (Some (obj, i))
        | Ok None => extract_scan data rest
        | Raise _ => extract_scan data rest
        end
  end.

(** [extract_dictionary]; [None] stands for the pair [(None, None)]. *)
Definition extract_dictionary (data : bytes) : result (option (json * Z)) :=
  extract_scan data (range 4 (len data - 10)).

End Locator.

(** ** Reference model of the library calls

    A model of the four library calls, written from RFC 1950 (zlib
    container), RFC 1951 (DEFLATE), RFC 3629 (UTF-8) and the grammar that
    [json.loads] accepts.  The statements about [extract_dictionary] hold
    for every [PyLib]; this instance lets them be run on concrete
    buffers. *)
Module Ref.

Definition zlen {A : Type} (l : list A) : Z := Z.of_nat (List.length l).

(** *** Bit input *)

(** Bits are consumed from the least significant bit of each byte. *)
Record bitstream : Type := {
  pending : list bool;
  rest : bytes
}.

Definition byte_bits (b : byte) : list bool :=
  map (Z.testbit (byte_val b)) [0; 1; 2; 3; 4; 5; 6; 7].

(** The outcome of reading from the input: a value, the input ending
    first, or corrupt data. *)
Inductive step (A : Type) : Type :=
| Got (a : A)
| Short
| Bad.

Arguments Got {A} a.
Arguments Short {A}.
Arguments Bad {A}.

Definition sbind {A B : Type} (c : step A) (k : A -> step B) : step B :=
  match c with
  | Got a => k a
  | Short => Short
  | Bad => Bad
  end.

Notation "x <~ c ;; k" := (sbind c (fun x => k))
  (at level 61, c at next level, right associativity).

Definition read_bit (s : bitstream) : step (bool * bitstream) :=
  match pending s with
  | b :: p => Got (b, {| pending := p; rest := rest s |})
  | [] =>
      match rest s with
      | [] => Short
      | x :: r =>
          match byte_bits x with
          | b :: p => Got (b, {| pending := p; rest := r |})
          | [] => Bad
          end
      end
  end.

(** An [n]-bit field, least significant bit first. *)
Fixpoint read_bits (n : nat) (s : bitstream) : step (Z * bitstream) :=
  match n with
  | O => Got (0, s)
  | S k =>
      r <~ read_bit s ;;
      r' <~ read_bits k (snd r) ;;
      Got (Z.b2z (fst r) + 2 * fst r', snd r')
  end.

(** Discard the rest of the current byte. *)
Definition align (s : bitstream) : bitstream :=
  {| pending := []; rest := rest s |}.

(** *** Huffman codes *)

(** A canonical code: the number of codes of each length 1..15, and the
    symbols ordered by code. *)
Record huffman : Type := {
  counts : list Z;
  symbols : list Z
}.

Definition code_lengths : list Z :=
  [1; 2; 3; 4; 5; 6; 7; 8; 9; 10; 11; 12; 13; 14; 15].

Fixpoint indices_of (l : Z) (lens : list Z) (i : Z) : list Z :=
  match lens with
  | [] => []
  | x :: more =>
      if x =? l then i :: indices_of l more (i + 1)
      else indices_of l more (i + 1)
  end.

Definition build (lens : list Z) : huffman :=
  {| counts := map (fun l => zlen (indices_of l lens 0)) code_lengths;
     symbols := flat_map (fun l => indices_of l lens 0) code_lengths |}.

(** Code space left after the codes of each length are assigned;
    negative as soon as the lengths are over-subscribed. *)
Fixpoint code_left (cs : list Z) (left : Z) : Z :=
  match cs with
  | [] => left
  | c :: more =>
      let l := 2 * left - c in
      if l <? 0 then l else code_left more l
  end.

(** The lengths are accepted: not over-subscribed, and complete unless
    the code has a single one-bit symbol ([strict] forbids that too, as
    for the code-length code).  A code without symbols is accepted and
    decodes nothing. *)
Definition code_ok (strict : bool) (h : huffman) : bool :=
  let left := code_left (counts h) 1 in
  let total := fold_right Z.add 0 (counts h) in
  if total =? 0 then true
  else if left <? 0 then false
  else if left =? 0 then true
  else negb strict && (total =? 1) && (hd 0 (counts h) =? 1).

(** Decode one symbol, reading a bit per code length. *)
Fixpoint decode_sym (cs syms : list Z) (code first index : Z)
  (s : bitstream) : step (Z * bitstream) :=
  match cs with
  | [] => Bad
  | count :: cs' =>
      r <~ read_bit s ;;
      let code := code + Z.b2z (fst r) in
      if code - count <? first then
        match nth_error syms (Z.to_nat (index + (code - first))) with
        | Some v => Got (v, snd r)
        | None => Bad
        end
      else if forallb (Z.eqb 0) cs' then Bad
      else decode_sym cs' syms (2 * code) (2 * (first + count))
             (index + count) (snd r)
  end.

Definition decode (h : huffman) (s : bitstream) : step (Z * bitstream) :=
  decode_sym (counts h) (symbols h) 0 0 0 s.

(** *** DEFLATE blocks *)

(** Base value and number of extra bits of the length symbols 257..285. *)
Definition LENGTH_TABLE : list (Z * Z) :=
  [ (3, 0); (4, 0); (5, 0); (6, 0); (7, 0); (8, 0); (9, 0); (10, 0);
    (11, 1); (13, 1); (15, 1); (17, 1); (19, 2); (23, 2); (27, 2); (31, 2);
    (35, 3); (43, 3); (51, 3); (59, 3); (67, 4); (83, 4); (99, 4); (115, 4);
    (131, 5); (163, 5); (195, 5); (227, 5); (258, 0) ].

(** Base value and number of extra bits of the distance symbols 0..29. *)
Definition DISTANCE_TABLE : list (Z * Z) :=
  [ (1, 0); (2, 0); (3, 0); (4, 0); (5, 1); (7, 1); (9, 2); (13, 2);
    (17, 3); (25, 3); (33, 4); (49, 4); (65, 5); (97, 5); (129, 6); (193, 6);
    (257, 7); (385, 7); (513, 8); (769, 8); (1025, 9); (1537, 9);
    (2049, 10); (3073, 10); (4097, 11); (6145, 11); (8193, 12); (12289, 12);
    (16385, 13); (24577, 13) ].

Definition FIXED_LITERALS : huffman :=
  build (repeat 8 144%nat ++ repeat 9 112%nat ++ repeat 7 24%nat
         ++ repeat 8 8%nat).

Definition FIXED_DISTANCES : huffman := build (repeat 5 32%nat).

(** Append [n] bytes, each copied from [dist] bytes back; [out] is the
    output so far, most recent byte first. *)
Fixpoint copy_back (n dist : nat) (out : bytes) : bytes :=
  match n with
  | O => out
  | S k => copy_back k dist (nth (dist - 1) out x00 :: out)
  end.

(** A length symbol followed by its distance: the pair
    (length, distance). *)
Definition read_match (dist : huffman) (sym : Z) (s : bitstream)
  : step (Z * Z * bitstream) :=
  match nth_error LENGTH_TABLE (Z.to_nat (sym - 257)) with
  | None => Bad
  | Some (lbase, lext) =>
      e <~ read_bits (Z.to_nat lext) s ;;
      d <~ decode dist (snd e) ;;
      match nth_error DISTANCE_TABLE (Z.to_nat (fst d)) with
      | None => Bad
      | Some (dbase, dext) =>
          x <~ read_bits (Z.to_nat dext) (snd d) ;;
          Got (lbase + fst e, dbase + fst x, snd x)
      end
  end.

(** The symbols of one compressed block.  The output comes back with the
    outcome: on [Short] it is what was decoded before the input ended. *)
Fixpoint inflate_codes (fuel : nat) (lit dist : huffman) (s : bitstream)
  (out : bytes) : bytes * step bitstream :=
  match fuel with
  | O => (out, Bad)
  | S f =>
      match decode lit s with
      | Short => (out, Short)
      | Bad => (out, Bad)
      | Got (sym, s1) =>
          if sym <? 256 then inflate_codes f lit dist s1 (byte_of_Z sym :: out)
          else if sym =? 256 then (out, Got s1)
          else
            match read_match dist sym s1 with
            | Short => (out, Short)
            | Bad => (out, Bad)
            | Got (length, distance, s2) =>
                if zlen out <? distance then (out, Bad)
                else inflate_codes f lit dist s2
                       (copy_back (Z.to_nat length) (Z.to_nat distance) out)
            end
      end
  end.

(** A stored block: LEN, its complement, then LEN raw bytes. *)
Definition inflate_stored (s : bitstream) (out : bytes)
  : bytes * step bitstream :=
  match rest s with
  | l0 :: l1 :: n0 :: n1 :: body =>
      let length := le_word [l0; l1] in
      if negb (length =? Z.lxor (le_word [n0; n1]) 0xFFFF) then (out, Bad)
      else
        let chunk := firstn (Z.to_nat length) body in
        let out' := rev chunk ++ out in
        if zlen body <? length then (out', Short)
        else (out', Got {| pending := [];
                           rest := skipn (Z.to_nat length) body |})
  | _ => (out, Short)
  end.

(** The order in which the lengths of the code-length code are sent. *)
Definition CLEN_ORDER : list Z :=
  [16; 17; 18; 0; 8; 7; 9; 6; 10; 5; 11; 4; 12; 3; 13; 2; 14; 1; 15].

Fixpoint read_fields (n : nat) (width : nat) (s : bitstream)
  : step (list Z * bitstream) :=
  match n with
  | O => Got ([], s)
  | S k =>
      v <~ read_bits width s ;;
      r <~ read_fields k width (snd v) ;;
      Got (fst v :: fst r, snd r)
  end.

Fixpoint assoc (k : Z) (kv : list (Z * Z)) : Z :=
  match kv with
  | [] => 0
  | (k', v) :: more => if k' =? k then v else assoc k more
  end.

(** The literal/length and distance code lengths of a dynamic block,
    run-length coded with the code-length code [cl]; [acc] holds the
    lengths read so far, last first. *)
Fixpoint read_lengths (fuel : nat) (total : Z) (cl : huffman)
  (s : bitstream) (acc : list Z) : step (list Z * bitstream) :=
  if total <=? zlen acc then Got (rev acc, s)
  else
    match fuel with
    | O => Bad
    | S f =>
        d <~ decode cl s ;;
        let sym := fst d in
        if sym <? 16 then read_lengths f total cl (snd d) (sym :: acc)
        else
          let '(width, base) :=
            if sym =? 16 then (2, 3) else if sym =? 17 then (3, 3)
            else (7, 11) in
          match sym =? 16, acc with
          | true, [] => Bad
          | _, _ =>
              e <~ read_bits (Z.to_nat width) (snd d) ;;
              let rep := base + fst e in
              let v := if sym =? 16 then hd 0 acc else 0 in
              if total <? zlen acc + rep then Bad
              else read_lengths f total cl (snd e)
                     (repeat v (Z.to_nat rep) ++ acc)
          end
    end.

(** The header of a dynamic block: the two codes it defines. *)
Definition dynamic_tables (fuel : nat) (s : bitstream)
  : step (huffman * huffman * bitstream) :=
  hlit <~ read_bits 5 s ;;
  hdist <~ read_bits 5 (snd hlit) ;;
  hclen <~ read_bits 4 (snd hdist) ;;
  let nlen := fst hlit + 257 in
  let ndist := fst hdist + 1 in
  let ncode := fst hclen + 4 in
  if (286 <? nlen) || (30 <? ndist) then Bad
  else
    f <~ read_fields (Z.to_nat ncode) 3 (snd hclen) ;;
    let sent := combine CLEN_ORDER (fst f) in
    let cl := build (map (fun k => assoc (Z.of_nat k) sent) (seq 0 19)) in
    if negb (code_ok true cl) then Bad
    else
      l <~ read_lengths fuel (nlen + ndist) cl (snd f) [] ;;
      let lens := fst l in
      if nth 256 lens 0 =? 0 then Bad
      else
        let lit := build (firstn (Z.to_nat nlen) lens) in
        let dist := build (skipn (Z.to_nat nlen) lens) in
        if code_ok false lit && code_ok false dist
        then Got (lit, dist, snd l)
        else Bad.

(** The blocks of a DEFLATE stream, up to and including the final one. *)
Fixpoint inflate_blocks (fuel : nat) (s : bitstream) (out : bytes)
  : bytes * step bitstream :=
  match fuel with
  | O => (out, Bad)
  | S f =>
      match (h <~ read_bits 1 s ;; t <~ read_bits 2 (snd h) ;;
             Got (fst h, fst t, snd t)) with
      | Short => (out, Short)
      | Bad => (out, Bad)
      | Got (bfinal, btype, s1) =>
          let block :=
            if btype =? 0 then inflate_stored s1 out
            else if btype =? 1
                 then inflate_codes f FIXED_LITERALS FIXED_DISTANCES s1 out
            else if btype =? 2 then
              match dynamic_tables f s1 with
              | Short => (out, Short)
              | Bad => (out, Bad)
              | Got (lit, dist, s2) => inflate_codes f lit dist s2 out
              end
            else (out, Bad) in
          match block with
          | (out', Got s3) =>
              if bfinal =? 1 then (out', Got s3)
              else inflate_blocks f s3 out'
          | other => other
          end
      end
  end.

(** *** zlib container *)

Fixpoint adler32_loop (data : bytes) (a b : Z) : Z :=
  match data with
  | [] => b * 65536 + a
  | x :: more =>
      let a' := (a + byte_val x) mod 65521 in
      adler32_loop more a' ((b + a') mod 65521)
  end.

Definition adler32 (data : bytes) : Z := adler32_loop data 1 0.

(** Big-endian value of a run of bytes. *)
Definition be_word (bs : bytes) : Z := le_word (rev bs).

(** [zlib.decompressobj().decompress(data)]: the stream is decoded as far
    as the input goes; input that ends early is not an error, the bytes
    decoded so far are returned; corrupt data raises [zlib.error].  Bytes
    after the end of the stream are left unused. *)
Definition decompress (data : bytes) : result bytes :=
  match data with
  | cmf :: flg :: body =>
      let c := byte_val cmf in
      let f := byte_val flg in
      if negb ((256 * c + f) mod 31 =? 0) then Raise ZlibError
      else if negb (Z.land c 15 =? 8) then Raise ZlibError
      else if 7 <? Z.shiftr c 4 then Raise ZlibError
      else if Z.testbit f 5 then
        if zlen body <? 4 then Ok [] else Raise ZlibError
      else
        let fuel := (8 * List.length body + 16)%nat in
        match inflate_blocks fuel {| pending := []; rest := body |} [] with
        | (_, Bad) => Raise ZlibError
        | (out, Short) => Ok (rev out)
        | (out, Got s) =>
            match rest s with
            | a :: b :: c :: d :: _ =>
                if be_word [a; b; c; d] =? adler32 (rev out)
                then Ok (rev out) else Raise ZlibError
            | _ => Ok (rev out)
            end
        end
  | _ => Ok []
  end.

(** *** UTF-8 *)

Definition continuation (b : byte) : bool :=
  (0x80 <=? byte_val b) && (byte_val b <=? 0xBF).

Definition between (lo hi : Z) (b : byte) : bool :=
  (lo <=? byte_val b) && (byte_val b <=? hi).

Definition low6 (b : byte) : Z := Z.land (byte_val b) 0x3F.

(** [data.decode('utf-8')], strict: overlong forms, surrogates and code
    points above U+10FFFF are rejected. *)
Fixpoint utf8_decode (data : bytes) : result str :=
  match data with
  | [] => Ok []
  | b0 :: r0 =>
      let v := byte_val b0 in
      if v <? 0x80 then
        s <- utf8_decode r0 ;; Ok (v :: s)
      else if between 0xC2 0xDF b0 then
        match r0 with
        | b1 :: r1 =>
            if continuation b1 then
              s <- utf8_decode r1 ;;
              Ok (Z.shiftl (Z.land v 0x1F) 6 + low6 b1 :: s)
            else Raise UnicodeDecodeError
        | _ => Raise UnicodeDecodeError
        end
      else if between 0xE0 0xEF b0 then
        match r0 with
        | b1 :: b2 :: r2 =>
            let lo := if v =? 0xE0 then 0xA0 else 0x80 in
            let hi := if v =? 0xED then 0x9F else 0xBF in
            if between lo hi b1 && continuation b2 then
              s <- utf8_decode r2 ;;
              Ok (Z.shiftl (Z.land v 0x0F) 12 + Z.shiftl (low6 b1) 6
                  + low6 b2 :: s)
            else Raise UnicodeDecodeError
        | _ => Raise UnicodeDecodeError
        end
      else if between 0xF0 0xF4 b0 then
        match r0 with
        | b1 :: b2 :: b3 :: r3 =>
            let lo := if v =? 0xF0 then 0x90 else 0x80 in
            let hi := if v =? 0xF4 then 0x8F else 0xBF in
            if between lo hi b1 && continuation b2 && continuation b3 then
              s <- utf8_decode r3 ;;
              Ok (Z.shiftl (Z.land v 0x07) 18 + Z.shiftl (low6 b1) 12
                  + Z.shiftl (low6 b2) 6 + low6 b3 :: s)
            else Raise UnicodeDecodeError
        | _ => Raise UnicodeDecodeError
        end
      else Raise UnicodeDecodeError
  end.

(** *** Strings *)

(** The code points for which [str.isspace] holds. *)
Definition is_space (c : Z) : bool :=
  ((0x09 <=? c) && (c <=? 0x0D)) || ((0x1C <=? c) && (c <=? 0x20))
  || (c =? 0x85) || (c =? 0xA0) || (c =? 0x1680)
  || ((0x2000 <=? c) && (c <=? 0x200A))
  || (c =? 0x2028) || (c =? 0x2029) || (c =? 0x202F) || (c =? 0x205F)
  || (c =? 0x3000).

Fixpoint lstrip (s : str) : str :=
  match s with
  | [] => []
  | c :: r => if is_space c then lstrip r else s
  end.

(** [s.strip()]. *)
Definition strip (s : str) : str := rev (lstrip (rev (lstrip s))).

(** *** JSON *)

Definition is_ws (c : Z) : bool :=
  (c =? 32) || (c =? 9) || (c =? 10) || (c =? 13).

Fixpoint skip_ws (s : str) : str :=
  match s with
  | [] => []
  | c :: r => if is_ws c then skip_ws r else s
  end.

Definition is_digit (c : Z) : bool := (48 <=? c) && (c <=? 57).

(** The longest run of digits at the head of [s], and what follows. *)
Fixpoint digits (s : str) : str * str :=
  match s with
  | [] => ([], [])
  | c :: r =>
      if is_digit c then let '(d, t) := digits r in (c :: d, t)
      else ([], s)
  end.

Definition hex_val (c : Z) : option Z :=
  if is_digit c then Some (c - 48)
  else if (97 <=? c) && (c <=? 102) then Some (c - 87)
  else if (65 <=? c) && (c <=? 70) then Some (c - 55)
  else None.

(** The four hex digits of a [\u] escape. *)
Definition hex4 (s : str) : option (Z * str) :=
  match s with
  | a :: b :: c :: d :: r =>
      match hex_val a, hex_val b, hex_val c, hex_val d with
      | Some x, Some y, Some z, Some w =>
          Some (4096 * x + 256 * y + 16 * z + w, r)
      | _, _, _, _ => None
      end
  | _ => None
  end.

Definition simple_escape (c : Z) : option Z :=
  if c =? 34 then Some 34 else if c =? 92 then Some 92
  else if c =? 47 then Some 47 else if c =? 98 then Some 8
  else if c =? 102 then Some 12 else if c =? 110 then Some 10
  else if c =? 114 then Some 13 else if c =? 116 then Some 9
  else None.

(** The low surrogate escape that may follow a high surrogate. *)
Definition low_surrogate (s : str) : option (Z * str) :=
  match s with
  | b :: u :: r =>
      if (b =? 92) && (u =? 117) then
        match hex4 r with
        | Some (lo, r') =>
            if (0xDC00 <=? lo) && (lo <=? 0xDFFF) then Some (lo, r')
            else None
        | None => None
        end
      else None
  | _ => None
  end.

(** A string literal, from just after its opening quote. *)
Fixpoint scan_string (fuel : nat) (s acc : str) : result (str * str) :=
  match fuel, s with
  | O, _ => Raise JSONDecodeError
  | _, [] => Raise JSONDecodeError
  | S f, c :: r =>
      if c =? 34 then Ok (rev acc, r)
      else if c =? 92 then
        match r with
        | [] => Raise JSONDecodeError
        | e :: r' =>
            if e =? 117 then
              match hex4 r' with
              | None => Raise JSONDecodeError
              | Some (cp, r2) =>
                  if (0xD800 <=? cp) && (cp <=? 0xDBFF) then
                    match low_surrogate r2 with
                    | Some (lo, r3) =>
                        scan_string f r3
                          (0x10000 + 1024 * (cp - 0xD800) + (lo - 0xDC00)
                           :: acc)
                    | None => scan_string f r2 (cp :: acc)
                    end
                  else scan_string f r2 (cp :: acc)
              end
            else
              match simple_escape e with
              | Some ch => scan_string f r' (ch :: acc)
              | None => Raise JSONDecodeError
              end
        end
      else if c <=? 0x1F then Raise JSONDecodeError
      else scan_string f r (c :: acc)
  end.

Fixpoint decimal (ds : str) (acc : Z) : Z :=
  match ds with
  | [] => acc
  | d :: r => decimal r (10 * acc + (d - 48))
  end.

(** The fraction [.digits] at the head of [s], if any. *)
Definition fraction (s : str) : str * str :=
  match s with
  | dot :: d :: r =>
      if (dot =? 46) && is_digit d then
        let '(ds, t) := digits r in (dot :: d :: ds, t)
      else ([], s)
  | _ => ([], s)
  end.

(** The exponent at the head of [s], if it has a digit. *)
Definition exponent (s : str) : str * str :=
  match s with
  | e :: r =>
      if (e =? 101) || (e =? 69) then
        let '(sign, r') :=
          match r with
          | c :: t => if (c =? 45) || (c =? 43) then ([c], t) else ([], r)
          | [] => ([], r)
          end in
        match digits r' with
        | ([], _) => ([], s)
        | (ds, t) => (e :: sign ++ ds, t)
        end
      else ([], s)
  | [] => ([], s)
  end.

(** The limit on the digits of an integer literal. *)
Definition MAX_STR_DIGITS : Z := 4300.

Definition parse_number (s : str) : result (json * str) :=
  let '(sign, s1) :=
    match s with
    | c :: r => if c =? 45 then ([c], r) else ([], s)
    | [] => ([], s)
    end in
  match s1 with
  | [] => Raise JSONDecodeError
  | c :: r =>
      if is_digit c then
        let '(int, s2) := if c =? 48 then ([c], r) else digits s1 in
        let '(frac, s3) := fraction s2 in
        let '(exp, s4) := exponent s3 in
        match frac, exp with
        | [], [] =>
            if MAX_STR_DIGITS <? zlen int then Raise ValueError
            else
              let v := decimal int 0 in
              Ok (JInt (match sign with [] => v | _ => - v end), s4)
        | _, _ => Ok (JFloat (sign ++ int ++ frac ++ exp), s4)
        end
      else Raise JSONDecodeError
  end.

(** The named constants, tried before a number. *)
Definition CONSTANTS : list (string * json) :=
  [ ("null"%string, JNull);
    ("true"%string, JBool true);
    ("false"%string, JBool false);
    ("NaN"%string, JFloat (str_lit "NaN"));
    ("Infinity"%string, JFloat (str_lit "Infinity"));
    ("-Infinity"%string, JFloat (str_lit "-Infinity")) ].

Fixpoint parse_constant (cs : list (string * json)) (s : str)
  : option (json * str) :=
  match cs with
  | [] => None
  | (name, v) :: more =>
      if str_prefix (str_lit name) s
      then Some (v, skipn (String.length name) s)
      else parse_constant more s
  end.

(** One value at the head of [s]; [parse_members] and [parse_elements]
    continue an object and an array whose items so far are [acc]. *)
Fixpoint parse_value (fuel : nat) (s : str) : result (json * str) :=
  match fuel, s with
  | O, _ => Raise RecursionError
  | _, [] => Raise JSONDecodeError
  | S f, c :: r =>
      if c =? 34 then
        x <- scan_string (S (List.length r)) r [] ;;
        Ok (JStr (fst x), snd x)
      else if c =? 123 then
        match skip_ws r with
        | [] => Raise JSONDecodeError
        | c' :: r' =>
            if c' =? 125 then Ok (JDict [], r')
            else parse_members f (c' :: r') []
        end
      else if c =? 91 then
        match skip_ws r with
        | [] => Raise JSONDecodeError
        | c' :: r' =>
            if c' =? 93 then Ok (JList [], r')
            else parse_elements f (c' :: r') []
        end
      else
        match parse_constant CONSTANTS s with
        | Some x => Ok x
        | None => parse_number s
        end
  end
with parse_members (fuel : nat) (s : str) (acc : list (str * json))
  : result (json * str) :=
  match fuel, s with
  | O, _ => Raise RecursionError
  | _, [] => Raise JSONDecodeError
  | S f, c :: r =>
      if negb (c =? 34) then Raise JSONDecodeError
      else
        k <- scan_string (S (List.length r)) r [] ;;
        match skip_ws (snd k) with
        | [] => Raise JSONDecodeError
        | colon :: r1 =>
            if negb (colon =? 58) then Raise JSONDecodeError
            else
              v <- parse_value f (skip_ws r1) ;;
              let acc' := dict_set acc (fst k) (fst v) in
              match skip_ws (snd v) with
              | [] => Raise JSONDecodeError
              | d :: r2 =>
                  if d =? 125 then Ok (JDict acc', r2)
                  else if d =? 44 then parse_members f (skip_ws r2) acc'
                  else Raise JSONDecodeError
              end
        end
  end
with parse_elements (fuel : nat) (s : str) (acc : list json)
  : result (json * str) :=
  match fuel with
  | O => Raise RecursionError
  | S f =>
      v <- parse_value f s ;;
      match skip_ws (snd v) with
      | [] => Raise JSONDecodeError
      | d :: r =>
          if d =? 93 then Ok (JList (rev (fst v :: acc)), r)
          else if d =? 44 then parse_elements f (skip_ws r) (fst v :: acc)
          else Raise JSONDecodeError
      end
  end.

(** [json.loads(s)]: one value, white space around it, nothing else.
    The interpreter's recursion limit is not modelled: nesting is bounded
    by the length of the text only. *)
Definition loads (s : str) : result json :=
  match s with
  | c :: _ => if c =? 0xFEFF then Raise JSONDecodeError else
      v <- parse_value (S (S (List.length s))) (skip_ws s) ;;
      match skip_ws (snd v) with
      | [] => Ok (fst v)
      | _ :: _ => Raise JSONDecodeError
      end
  | [] => Raise JSONDecodeError
  end.

#[export] Instance lib : PyLib := {
  zlib_decompress := decompress;
  decode_utf8 := utf8_decode;
  str_strip := strip;
  json_loads := loads
}.

End Ref.

(** ** Sample images *)

(** A vector table header: stack pointer 0x20001000, reset vector
    0x08003101. *)
Definition vt_header : bytes := [x00; x10; x00; x20; x01; x31; x00; x08].

(** [zlib.compress] of the JSON text
    [{"config": {"MCU": "gd32f303", "CLOCK_FREQ": 72000000,
      "SERIAL_BAUD": 250000}}]. *)
Definition sample_stream : bytes :=
  [ x78; x9c; xab; x56; x4a; xce; xcf; x4b; xcb; x4c; x57; xb2; x52; xa8; x56;
    xf2; x75; x0e; x05; xd2; x4a; xe9; x29; xc6; x46; x69; xc6; x06; xc6; x4a;
    x3a; x0a; x4a; xce; x3e; xfe; xce; xde; xf1; x6e; x41; xae; x81; x40; x19;
    x73; x23; x03; x30; x00; x8a; x07; xbb; x06; x79; x3a; xfa; xc4; x3b; x39;
    x86; xba; x00; x25; x8c; x4c; x41; xc2; xb5; xb5; x00; x28; x81; x13; xb0 ].

Definition sample_config : list (str * json) :=
  [ (str_lit "MCU", JStr (str_lit "gd32f303"));
    (str_lit "CLOCK_FREQ", JInt 72000000);
    (str_lit "SERIAL_BAUD", JInt 250000) ].

Definition sample_dict : json :=
  JDict [ (str_lit "config", JDict sample_config) ].

(** An application image linked at 0x08003000: the vector table, a literal
    holding the flash address of the dictionary, and the dictionary stream
    at file offset 12. *)
Definition sample_image : bytes :=
  vt_header ++ [x0c; x30; x00; x08] ++ sample_stream.

(** A full-flash capture with a table at offset 0 and another one at
    offset 0x1000. *)
Definition two_tables : bytes :=
  vt_header ++ repeat x00 4088 ++ vt_header.

(** An image without a dictionary in which the signature bytes occur by
    accident at offset 8. *)
Definition noisy_image : bytes :=
  vt_header ++ [x78; x9c] ++ repeat xff 20.

(** A file of three bytes. *)
Definition short_file : bytes := [x00; x10; x00].

(** Eight bytes whose reset vector is 0x00001001. *)
Definition low_reset : bytes := [x00; x00; x00; x00; x01; x10; x00; x00].

(** Eight zero bytes. *)
Definition zero_image : bytes := repeat x00 8.

(** ** Specification-side notions *)

(** Position [i] is accepted: it carries the signature and the body of the
    [try] reaches its [return]. *)
Definition accepted {lib : PyLib} (data : bytes) (i : Z) : option json :=
  match no_signature data i with
  | Ok false =>
      match try_candidate data i with
      | Ok (Some obj) => Some obj
      | _ => None
      end
  | _ => None
  end.

(** The vector-table file offset as the specification words it: the first
    non-zero enumerated offset with a plausible table, 0 when there is
    none. *)
Definition spec_vt_file_offset (data : bytes) : result Z :=
  vt_scan data (tl KNOWN_BL_OFFSETS).

(** The needle of candidate [b]: the four little-endian bytes of the
    hypothetical flash address of the dictionary. *)
Definition needle (b d vt : Z) : bytes :=
  le_bytes 4 (FLASH_BASE + b + d - vt).

(** Every candidate address of a dictionary at offset [d] fits in 32
    bits. *)
Definition addressable (d : Z) : Prop :=
  0 <= d <= 0xFFFFFFFF - FLASH_BASE - 0x8000.

(** The dictionary offset handed to the resolver is absent or
    addressable. *)
Definition dict_ok (dict : option Z) : Prop :=
  match dict with
  | None => True
  | Some d => addressable d
  end.

(** The first accepted position among [positions], with its object. *)
Fixpoint first_accepted {lib : PyLib} (data : bytes) (positions : list Z)
  : option (json * Z) :=
  match positions with
  | [] => None
  | i :: rest =>
      match accepted data i with
      | Some obj => Some (obj, i)
      | None => first_accepted data rest
      end
  end.

(** ** Formatting *)

(** The digits of [n >= 0] in base [base], most significant first. *)
Fixpoint digits_of (fuel : nat) (base n : Z) (acc : list Z) : list Z :=
  match fuel with
  | O => acc
  | S f =>
      let acc' := n mod base :: acc in
      if n / base =? 0 then acc' else digits_of f base (n / base) acc'
  end.

Definition nat_digits (base n : Z) : list Z :=
  digits_of (S (Z.to_nat (Z.log2 n))) base n [].

(** The character of a digit, upper case above 9. *)
Definition digit_char (d : Z) : Z := if d <? 10 then 48 + d else 55 + d.

Definition sign_of (n : Z) : str := if n <? 0 then [45] else [].

(** [str(n)] for an integer. *)
Definition format_int (n : Z) : str :=
  sign_of n ++ map digit_char (nat_digits 10 (Z.abs n)).

(** [format(n, '0<width>X')]: upper-case hexadecimal, zero-padded after the
    sign to [width] characters. *)
Definition format_X (width : Z) (n : Z) : str :=
  let ds := map digit_char (nat_digits 16 (Z.abs n)) in
  let pad := width - Z.of_nat (List.length (sign_of n))
             - Z.of_nat (List.length ds) in
  sign_of n ++ repeat 48 (Z.to_nat pad) ++ ds.

(** Commas between groups of three, on digits given least significant
    first. *)
Fixpoint group3 (ds : list Z) : list Z :=
  match ds with
  | a :: b :: c :: ((_ :: _) as more) => a :: b :: c :: 44 :: group3 more
  | _ => ds
  end.

(** [format(n, ',')]. *)
Definition format_comma (n : Z) : str :=
  sign_of n ++ rev (group3 (rev (map digit_char (nat_digits 10 (Z.abs n))))).

(** [sep.join(parts)]. *)
Fixpoint str_join (sep : str) (parts : list str) : str :=
  match parts with
  | [] => []
  | [p] => p
  | p :: more => p ++ sep ++ str_join sep more
  end.

(** ** Slices and stepped ranges *)

(** A slice bound brought into [0, n], a negative one counted from the
    end. *)
Definition clamp_index (n i : Z) : Z :=
  let j := if i <? 0 then i + n else i in
  Z.max 0 (Z.min n j).

(** [data[a:b]]. *)
Definition slice (data : bytes) (a b : Z) : bytes :=
  let s := clamp_index (len data) a in
  let e := clamp_index (len data) b in
  firstn (Z.to_nat (e - s)) (skipn (Z.to_nat s) data).

(** [range(lo, hi, step)] for a positive step. *)
Definition range_step (lo hi step : Z) : list Z :=
  map (fun k => lo + step * Z.of_nat k)
      (seq 0 (Z.to_nat ((hi - lo + step - 1) / step))).

(** ** Hex dump *)

Definition NOTE_MSP : str := str_lit " " ++ [8592] ++ str_lit " MSP".

Definition NOTE_RESET : str := str_lit " " ++ [8592] ++ str_lit " Reset".

(** One row of [hex_dump]: address, the bytes in hex, the word, a note. *)
Definition hex_row (data : bytes) (i : Z) : result (Z * str * Z * str) :=
  w <- u32le data i ;;
  let b := slice data i (i + 4) in
  let hex_str :=
    str_join (str_lit " ") (map (fun x => format_X 2 (byte_val x)) b) in
  let addr := FLASH_BASE + i in
  let note :=
    if i =? 0 then NOTE_MSP else if i =? 4 then NOTE_RESET else [] in
  Ok (addr, hex_str, w, note).

Fixpoint hex_rows (data : bytes) (starts : list Z)
  : result (list (Z * str * Z * str)) :=
  match starts with
  | [] => Ok []
  | i :: more =>
      r <- hex_row data i ;;
      rs <- hex_rows data more ;;
      Ok (r :: rs)
  end.

(** [hex_dump(data, start, count)]; the defaults are [start = 0] and
    [count = 64]. *)
Definition hex_dump (data : bytes) (start count : Z)
  : result (list (Z * str * Z * str)) :=
  hex_rows data (range_step start (Z.min (start + count) (len data)) 4).

(** ** Crystal table *)

Definition CRYSTAL_MAP : list (Z * (str * str)) :=
  [ (72000000, (str_lit "8 MHz",
      str_lit "8 MHz " ++ [215] ++ str_lit " PLL" ++ [215]
      ++ str_lit "9 = 72 MHz " ++ [8212]
      ++ str_lit " standard STM32F103/GD32F303"));
    (64000000, (str_lit "8 MHz",
      str_lit "8 MHz " ++ [215] ++ str_lit " PLL" ++ [215]
      ++ str_lit "8 = 64 MHz"));
    (48000000, (str_lit "8 MHz",
      str_lit "8 MHz " ++ [215] ++ str_lit " PLL" ++ [215]
      ++ str_lit "6 = 48 MHz"));
    (24000000, (str_lit "8 MHz",
      str_lit "8 MHz " ++ [215] ++ str_lit " PLL" ++ [215]
      ++ str_lit "3 = 24 MHz"));
    (120000000, (str_lit "8 MHz",
      str_lit "8 MHz " ++ [215] ++ str_lit " PLL" ++ [215]
      ++ str_lit "15 = 120 MHz " ++ [8212]
      ++ str_lit " GD32F303 high-speed mode"));
    (180000000, (str_lit "12 MHz",
      str_lit "12 MHz " ++ [215] ++ str_lit " PLL" ++ [215]
      ++ str_lit "15 " ++ [8212] ++ str_lit " likely STM32F4xx"));
    (168000000, (str_lit "8/12 MHz",
      str_lit "STM32F4 " ++ [8212] ++ str_lit " check PCB crystal")) ].

Fixpoint crystal_get (m : list (Z * (str * str))) (k : Z)
  : option (str * str) :=
  match m with
  | [] => None
  | (k', v) :: more => if k' =? k then Some v else crystal_get more k
  end.

Definition CRYSTAL_UNKNOWN : str :=
  str_lit " Hz " ++ [8212] ++ str_lit " crystal unknown".

(** The exceptions of the report stage: those of the analysis, and
    [OverflowError], which [int()] raises for an infinite float. *)
Inductive report_exn : Type :=
| Analysis (e : exn)
| OverflowError.

Inductive outcome (A : Type) : Type :=
| Returns (a : A)
| Throws (e : report_exn).

Arguments Returns {A} a.
Arguments Throws {A} e.

Definition obind {A B : Type} (c : outcome A) (k : A -> outcome B)
  : outcome B :=
  match c with
  | Returns a => k a
  | Throws e => Throws e
  end.

Notation "x <<- c ;; k" := (obind c (fun x => k))
  (at level 61, c at next level, right associativity).

Definition lift {A : Type} (c : result A) : outcome A :=
  match c with
  | Ok a => Returns a
  | Raise e => Throws (Analysis e)
  end.

(** The conversions of [int()] that are the interpreter's own: from a
    float, given as the text of its literal, and from a string. *)
Class PyConv : Type := {
  int_of_float : str -> outcome Z;
  int_of_str : str -> outcome Z
}.

Section Crystal.

Context {conv : PyConv}.

(** [int(v)] for a value read from the dictionary. *)
Definition py_int (v : json) : outcome Z :=
  match v with
  | JInt n => Returns n
  | JBool b => Returns (Z.b2z b)
  | JFloat lit => int_of_float lit
  | JStr s => int_of_str s
  | JNull => Throws (Analysis TypeError)
  | JList _ => Throws (Analysis TypeError)
  | JDict _ => Throws (Analysis TypeError)
  end.

(** [derive_crystal]; JSON [null] is Python's [None].  Both arguments of
    [CRYSTAL_MAP.get] are evaluated before the lookup. *)
Definition derive_crystal (clock_freq : json)
  : outcome (option str * option str) :=
  match clock_freq with
  | JNull => Returns (None, None)
  | _ =>
      k <<- py_int clock_freq ;;
      k' <<- py_int clock_freq ;;
      Returns (match crystal_get CRYSTAL_MAP k with
               | Some (crystal, note) => (Some crystal, Some note)
               | None => (None, Some (format_comma k' ++ CRYSTAL_UNKNOWN))
               end)
  end.

End Crystal.

(** ** Truth values *)

(** A float literal denotes zero: its digits are all zero, or its value is
    at most 2^-1075 and rounds to zero. *)
Definition float_is_zero (lit : str) : bool :=
  let body :=
    match lit with
    | c :: r => if c =? 45 then r else lit
    | [] => lit
    end in
  let '(ip, r1) := Ref.digits body in
  match ip with
  | [] => false
  | _ :: _ =>
      let '(fp, r2) :=
        match r1 with
        | dot :: r => if dot =? 46 then Ref.digits r else ([], r1)
        | [] => ([], r1)
        end in
      let e :=
        match r2 with
        | c :: r =>
            if (c =? 101) || (c =? 69) then
              match r with
              | sg :: ds =>
                  if sg =? 45 then - Ref.decimal ds 0
                  else if sg =? 43 then Ref.decimal ds 0
                  else Ref.decimal r 0
              | [] => 0
              end
            else 0
        | [] => 0
        end in
      let m := Ref.decimal (ip ++ fp) 0 in
      let e10 := e - Z.of_nat (List.length fp) in
      (m =? 0) || ((e10 <? 0) && (m * 2 ^ 1075 <=? 10 ^ (- e10)))
  end.

(** [bool(v)]. *)
Definition json_truthy (v : json) : bool :=
  match v with
  | JNull => false
  | JBool b => b
  | JInt n => negb (n =? 0)
  | JFloat lit => negb (float_is_zero lit)
  | JStr s => match s with [] => false | _ :: _ => true end
  | JList l => match l with [] => false | _ :: _ => true end
  | JDict d => match d with [] => false | _ :: _ => true end
  end.

(** ** Report fields *)

(** [cfg.get(key)]. *)
Definition cfg_get (cfg : json) (key : string) : result json :=
  py_get cfg (str_lit key) JNull.

(** [a or b], with [b] evaluated only when [a] is falsy. *)
Definition py_or (a : json) (b : result json) : result json :=
  if json_truthy a then Ok a else b.

(** ** Standard output *)

(** [print] is the interpreter's, and what it does with a line depends on
    the stream behind [sys.stdout]: a call returns or raises (a
    [UnicodeEncodeError] for a lone surrogate on a UTF-8 stream, an
    [OSError] on a closed pipe), and it changes the stream.
    [print_line w label v] is [print(f"{label}{v}")] on the stream in
    state [w]: the new state, and the exception if one is raised. *)
Class PyOut : Type := {
  stdout : Type;
  print_exn : Type;
  print_line : stdout -> str -> json -> stdout * option print_exn
}.

Section Summary.

Context {out : PyOut}.

(** What the summary block of [main] can raise: an exception of a lookup,
    or one of [print]. *)
Inductive summary_exn : Type :=
| Lookup (e : exn)
| Printing (e : print_exn).

(** One [print(f"{label}{value}")] of the block, then the rest of it: the
    value is evaluated first, and an exception ends the block. *)
Definition print_field (w : stdout) (label : string) (value : result json)
  (rest : stdout -> stdout * option summary_exn)
  : stdout * option summary_exn :=
  match value with
  | Raise e => (w, Some (Lookup e))
  | Ok v =>
      match print_line w (str_lit label) v with
      | (w', Some e) => (w', Some (Printing e))
      | (w', None) => rest w'
      end
  end.

(** The block of [main] that prints the summary of a found dictionary:
    MCU, CLOCK_FREQ, SERIAL_BAUD, the serial pins and INITIAL_PINS, each
    looked up and printed in turn; nothing is done for a falsy
    [dict_obj].  The result is the state of the stream and the exception
    raised, if any. *)
Definition print_summary (w : stdout) (dict_obj : json)
  : stdout * option summary_exn :=
  if json_truthy dict_obj then
    match py_get dict_obj (str_lit "config") dict_obj with
    | Raise e => (w, Some (Lookup e))
    | Ok cfg =>
        print_field w "    MCU:        " (cfg_get cfg "MCU") (fun w1 =>
        print_field w1 "    CLOCK_FREQ: " (cfg_get cfg "CLOCK_FREQ") (fun w2 =>
        print_field w2 "    SERIAL_BAUD:" (cfg_get cfg "SERIAL_BAUD") (fun w3 =>
        print_field w3 "    Pins:       "
          (reserve <- cfg_get cfg "RESERVE_PINS_serial" ;;
           py_or reserve (cfg_get cfg "BUS_PINS_serial")) (fun w4 =>
        print_field w4 "    InitPins:   " (cfg_get cfg "INITIAL_PINS")
          (fun w5 => (w5, None))))))
    end
  else (w, None).

End Summary.

Arguments summary_exn : clear implicits.

(** The locals that [render_html] computes before it builds any text. *)
Record report_fields : Type := {
  rf_cfg : json;
  rf_clock_freq : json;
  rf_mcu_name : json;
  rf_serial_baud : json;
  rf_serial_pins : json;
  rf_initial_pins : json;
  rf_version : json;
  rf_build_vers : json;
  rf_crystal : option str;
  rf_crystal_note : option str
}.

(** The first lines of [render_html], up to the call of
    [derive_crystal]. *)
Definition render_fields {conv : PyConv} (dict_obj : json)
  : outcome report_fields :=
  cfg <<- lift (if json_truthy dict_obj
                then py_get dict_obj (str_lit "config") dict_obj
                else Ok (JDict [])) ;;
  clock_freq <<- lift (cfg_get cfg "CLOCK_FREQ") ;;
  mcu_name <<- lift (cfg_get cfg "MCU") ;;
  serial_baud <<- lift (cfg_get cfg "SERIAL_BAUD") ;;
  reserve <<- lift (cfg_get cfg "RESERVE_PINS_serial") ;;
  serial_pins <<- lift (py_or reserve (cfg_get cfg "BUS_PINS_serial")) ;;
  initial_pins <<- lift (cfg_get cfg "INITIAL_PINS") ;;
  version <<- lift (if json_truthy dict_obj then cfg_get dict_obj "version"
                    else Ok JNull) ;;
  build_vers <<- lift (if json_truthy dict_obj
                       then cfg_get dict_obj "build_versions"
                       else Ok JNull) ;;
  c <<- derive_crystal clock_freq ;;
  Returns {| rf_cfg := cfg; rf_clock_freq := clock_freq;
             rf_mcu_name := mcu_name; rf_serial_baud := serial_baud;
             rf_serial_pins := serial_pins; rf_initial_pins := initial_pins;
             rf_version := version; rf_build_vers := build_vers;
             rf_crystal := fst c; rf_crystal_note := snd c |}.

(** ** Verdict *)

(** [bl_offset == off] for an offset that may be [None]. *)
Definition offset_is (bl_offset : option Z) (off : Z) : bool :=
  match bl_offset with
  | Some b => b =? off
  | None => false
  end.

(** [str(kib)] for the size that line 223 of the source binds: the
    classifier's, or [None] without an offset. *)
Definition kib_text (bl_offset : option Z) : str :=
  match bl_offset with
  | Some b => format_int (fst (offset_label b))
  | None => str_lit "None"
  end.

Definition VERDICT_ICON_OK : str := str_lit "[" ++ [10003] ++ str_lit "]".

(** The class, icon and title of the verdict of [render_html]. *)
Definition verdict (vt : vector_table) (dict_obj : json)
  (bl_offset : option Z) : str * str * str :=
  if negb (msp_ok vt) || negb (flash_ok vt) || negb (truthy (thumb vt)) then
    (str_lit "error", str_lit "[!]",
     str_lit "Invalid or unrecognised ARM Cortex-M image")
  else if json_truthy dict_obj && offset_is bl_offset 0x3000 then
    (str_lit "ok", VERDICT_ICON_OK,
     str_lit "Valid Klipper firmware " ++ [8212]
     ++ str_lit " Creality K1/K1 SE/K1 Max (GD32F303)")
  else if json_truthy dict_obj then
    (str_lit "ok", VERDICT_ICON_OK,
     str_lit "Valid Klipper firmware " ++ [8212]
     ++ str_lit " bootloader offset "
     ++ match bl_offset with
        | Some b => str_lit "0x" ++ format_X 4 b
        | None => str_lit "unknown"
        end
     ++ str_lit " (" ++ kib_text bl_offset ++ str_lit " KiB)")
  else
    (str_lit "warn", str_lit "[~]",
     str_lit "Valid ARM image " ++ [8212]
     ++ str_lit " no Klipper dictionary found").

(** The [match] flag of each row of the offset table of the report, in the
    order of [KNOWN_OFFSETS]. *)
Definition offset_rows_match (bl_offset : option Z) : list bool :=
  map (fun e => offset_is bl_offset (fst (fst e))) KNOWN_OFFSETS.

(** ** The analysis of one file *)

(** What [main] computes for one file before it prints. *)
Record analysis : Type := {
  an_vt : vector_table;
  an_dict_obj : json;
  an_dict_offset : option Z;
  an_link_base : Z;
  an_bl_offset : option Z
}.

(** The four assignments of [main]; the pair [(None, None)] of the locator
    binds [dict_obj] and [dict_offset] to [None]. *)
Definition analyze {lib : PyLib} (data : bytes) : result analysis :=
  vt <- analyze_vector_table data ;;
  located <- extract_dictionary data ;;
  let dict_obj := match located with Some (obj, _) => obj | None => JNull end in
  let dict_offset := option_map snd located in
  link_base <- find_link_base data dict_offset ;;
  Ok {| an_vt := vt; an_dict_obj := dict_obj; an_dict_offset := dict_offset;
        an_link_base := link_base;
        an_bl_offset := bootloader_offset link_base |}.

(** ** Report path *)

(** [s.replace(old, new)] for a non-empty [old]: the occurrences found
    from the left, without overlap; [skip] counts the characters of the
    last occurrence still to be passed. *)
Fixpoint replace_from (old new : str) (skip : nat) (s : str) : str :=
  match s with
  | [] => []
  | c :: r =>
      match skip with
      | S k => replace_from old new k r
      | O =>
          if str_prefix old s
          then new ++ replace_from old new (List.length old - 1) r
          else c :: replace_from old new 0 r
      end
  end.

Definition str_replace (s old new : str) : str := replace_from old new 0 s.

Definition REPORT_SUFFIX : str := str_lit "_analysis.html".

(** The path [main] writes the report of [bin_path] to; [output] is
    [args.output] and [nbins] is [len(args.bin)]. *)
Definition report_path (output : option str) (nbins : Z) (bin_path : str)
  : str :=
  let derived :=
    let out_path := str_replace bin_path (str_lit ".bin") REPORT_SUFFIX in
    if str_eqb out_path bin_path then bin_path ++ REPORT_SUFFIX
    else out_path in
  match output with
  | Some (c :: o) => if nbins =? 1 then c :: o else derived
  | _ => derived
  end.

(** ** More sample images *)

(** An output stream that keeps the lines printed to it and raises
    nothing. *)
Definition recording_stdout : PyOut :=
  {| stdout := list (str * json);
     print_exn := Empty_set;
     print_line := fun w label v => (w ++ [(label, v)], None) |}.

(** [zlib.compress] of the JSON text [{"config": "MCU"}]. *)
Definition string_config_stream : bytes := 
  [ x78; x9c; xab; x56; x4a; xce; xcf; x4b; xcb; x4c; x57; xb2; x52; x50; xf2; x75; x0e; x55; xaa; x05; x00; x32; x1d; x05; x36 ].

(** An image whose dictionary has a string for its [config]. *)
Definition string_config_image : bytes :=
  vt_header ++ [x0c; x30; x00; x08] ++ string_config_stream.

(** A reader of hex rows, the inverse of the formatting of [hex_row]:
    pairs of upper-case hex digits separated by single spaces. *)
Definition unhex_digit (c : Z) : option Z :=
  if (48 <=? c) && (c <=? 57) then Some (c - 48)
  else if (65 <=? c) && (c <=? 70) then Some (c - 55)
  else None.

Fixpoint unhex_row (s : str) : option bytes :=
  match s with
  | [] => Some []
  | [a; b] =>
      match unhex_digit a, unhex_digit b with
      | Some x, Some y => Some [byte_of_Z (16 * x + y)]
      | _, _ => None
      end
  | a :: b :: sp :: more =>
      match unhex_digit a, unhex_digit b, unhex_row more with
      | Some x, Some y, Some bs =>
          if sp =? 32 then Some (byte_of_Z (16 * x + y) :: bs) else None
      | _, _, _ => None
      end
  | _ => None
  end.

(** A reader of formatted integers, the inverse of [format_int] and
    [format_comma]: an optional minus sign, then decimal digits, commas
    ignored. *)
Definition read_int (s : str) : Z :=
  let digits_only := filter (fun c => negb (c =? 44)) in
  match s with
  | c :: r =>
      if c =? 45 then - Ref.decimal (digits_only r) 0
      else Ref.decimal (digits_only s) 0
  | [] => 0
  end.

(** * Properties *)

(** ** Bytes and words *)

Lemma Ok_inj {A : Type} (a b : A) : Ok a = Ok b -> a = b.
Proof. intros H. now inversion H. Qed.

Lemma Some_inj {A : Type} (a b : A) : Some a = Some b -> a = b.
Proof. intros H. now inversion H. Qed.

Lemma byte_val_range (b : byte) : 0 <= byte_val b < 256.
Proof.
  unfold byte_val. pose proof (Byte.to_N_bounded b). lia.
Qed.

Lemma le_word_firstn4 (l : bytes) : 0 <= le_word (firstn 4 l) < 2 ^ 32.
Proof.
  destruct l as [|a [|b [|c [|d r]]]]; cbn [firstn le_word];
    try pose proof (byte_val_range a); try pose proof (byte_val_range b);
    try pose proof (byte_val_range c); try pose proof (byte_val_range d);
    change (2 ^ 32) with 4294967296; lia.
Qed.

Lemma u32le_ok (data : bytes) (off : Z) :
  0 <= off -> off + 4 <= len data ->
  u32le data off = Ok (le_word (firstn 4 (skipn (Z.to_nat off) data))).
Proof.
  intros H0 H4. unfold u32le, unpack_from_I. cbv zeta.
  rewrite !(proj2 (Z.ltb_ge off 0)) by lia.
  rewrite (proj2 (Z.ltb_ge (len data - off) 4)) by lia.
  reflexivity.
Qed.

Lemma u32le_range (data : bytes) (off w : Z) :
  u32le data off = Ok w -> 0 <= w < 2 ^ 32.
Proof.
  unfold u32le, unpack_from_I.
  destruct (_ || _); [discriminate|].
  intros H. injection H as <-. apply le_word_firstn4.
Qed.

Lemma u32le_short (data : bytes) (off : Z) :
  0 <= off -> len data < off + 4 -> u32le data off = Raise StructError.
Proof.
  intros H0 H4. unfold u32le, unpack_from_I. cbv zeta.
  rewrite !(proj2 (Z.ltb_ge off 0)) by lia.
  rewrite (proj2 (Z.ltb_lt (len data - off) 4)) by lia.
  reflexivity.
Qed.

Lemma len_nonneg (data : bytes) : 0 <= len data.
Proof. unfold len. lia. Qed.

(** Masking with 0xFFFFFFFE clears bit 0 of a 32-bit word. *)
Lemma land_clear_thumb (w : Z) :
  0 <= w < 2 ^ 32 -> Z.land w 0xFFFFFFFE = Z.clearbit w 0.
Proof.
  intros Hw. apply Z.bits_inj'. intros n Hn.
  rewrite Z.land_spec, Z.clearbit_eqb.
  change 0xFFFFFFFE with (Z.shiftl (Z.ones 31) 1).
  destruct (Z.eq_dec n 0) as [->|Hne].
  - rewrite Z.eqb_refl. cbn. reflexivity.
  - rewrite (proj2 (Z.eqb_neq 0 n)) by lia.
    rewrite Z.shiftl_spec by lia.
    destruct (Z_lt_dec n 32) as [Hlt|Hge].
    + rewrite Z.ones_spec_low by lia. cbn. now rewrite andb_true_r.
    + rewrite Z.ones_spec_high by lia.
      rewrite (Z.bits_above_log2 w n); [reflexivity|lia|].
      destruct (Z.eq_dec w 0) as [->|Hw0]; [cbn; lia|].
      apply Z.log2_lt_pow2; [lia|].
      eapply Z.lt_le_trans; [apply Hw|]. apply Z.pow_le_mono_r; lia.
Qed.

(** The thumb test [reset & 1] is bit 0 of the word. *)
Lemma truthy_land_1 (w : Z) : truthy (Z.land w 1) = Z.testbit w 0.
Proof.
  unfold truthy. change 1 with (Z.ones 1) at 1.
  rewrite Z.land_ones by lia. change (2 ^ 1) with 2.
  rewrite <- Z.bit0_mod. destruct (Z.testbit w 0); reflexivity.
Qed.

(** ** Vector table validator *)

Lemma is_valid_vt_short (data : bytes) (offset : Z) :
  len data < offset + 8 -> is_valid_vt data offset = Ok false.
Proof.
  intros H. unfold is_valid_vt.
  rewrite Z.gtb_ltb, (proj2 (Z.ltb_lt _ _)) by lia. reflexivity.
Qed.

(** Inside the buffer the validator reads both words and returns the
    conjunction of the three tests. *)
Lemma is_valid_vt_words (data : bytes) (offset : Z) :
  0 <= offset -> offset + 8 <= len data ->
  exists sp rv,
    u32le data offset = Ok sp /\ u32le data (offset + 4) = Ok rv /\
    is_valid_vt data offset =
      Ok (((0x20000000 <=? sp) && (sp <=? 0x20020000))
          && ((FLASH_BASE <=? Z.land rv 0xFFFFFFFE)
              && (Z.land rv 0xFFFFFFFE <? FLASH_BASE + 0x80000))
          && truthy (Z.land rv 1)).
Proof.
  intros H0 H8.
  eexists _, _. split; [apply u32le_ok; lia|]. split; [apply u32le_ok; lia|].
  unfold is_valid_vt.
  rewrite Z.gtb_ltb, (proj2 (Z.ltb_ge _ _)) by lia.
  rewrite !u32le_ok by lia. reflexivity.
Qed.

Lemma is_valid_vt_total (data : bytes) (offset : Z) :
  0 <= offset -> exists b, is_valid_vt data offset = Ok b.
Proof.
  intros H0. destruct (Z_lt_dec (len data) (offset + 8)) as [Hs|Hl].
  - exists false. now apply is_valid_vt_short.
  - destruct (is_valid_vt_words data offset) as (sp & rv & _ & _ & E);
      [lia..|]. eauto.
Qed.

(** C4: inside the buffer, a location is a plausible vector table exactly
    when the stack pointer lies in [0x20000000, 0x20020000], the reset
    vector with bit 0 cleared lies in [0x08000000, 0x08080000), and bit 0
    of the reset vector is set; the top-level validation of offset 0 in the
    report applies the same conjunction. *)
Theorem C4_plausible_vector_table (data : bytes) (offset : Z) :
  0 <= offset -> offset + 8 <= len data ->
  exists sp rv,
    u32le data offset = Ok sp /\
    u32le data (offset + 4) = Ok rv /\
    (is_valid_vt data offset = Ok true \/ is_valid_vt data offset = Ok false) /\
    (is_valid_vt data offset = Ok true <->
       0x20000000 <= sp <= 0x20020000 /\
       0x08000000 <= Z.clearbit rv 0 < 0x08080000 /\
       Z.testbit rv 0 = true) /\
    (offset = 0 ->
       exists vt, analyze_vector_table data = Ok vt /\
                  is_valid_vt data 0 = Ok (vt_plausible vt)).
Proof.
  intros H0 H8.
  destruct (is_valid_vt_words data offset H0 H8) as (sp & rv & Esp & Erv & E).
  exists sp, rv. split; [exact Esp|]. split; [exact Erv|].
  pose proof (u32le_range _ _ _ Erv) as Hrv.
  split; [rewrite E; match goal with |- Ok ?b = _ \/ _ => destruct b end; auto|].
  split.
  - rewrite E, <- (land_clear_thumb rv Hrv), truthy_land_1.
    unfold FLASH_BASE. split.
    + intros H. injection H as H.
      apply andb_prop in H as [H Ht]. apply andb_prop in H as [Hs Hf].
      apply andb_prop in Hs as [Hs1 Hs2]. apply andb_prop in Hf as [Hf1 Hf2].
      apply Z.leb_le in Hs1, Hs2, Hf1. apply Z.ltb_lt in Hf2.
      split; [lia|]. split; [lia|]. exact Ht.
    + intros ((Hs1 & Hs2) & (Hf1 & Hf2) & Ht). f_equal.
      rewrite Ht.
      rewrite (proj2 (Z.leb_le _ _) Hs1), (proj2 (Z.leb_le _ _) Hs2).
      rewrite (proj2 (Z.leb_le _ _) Hf1).
      rewrite (proj2 (Z.ltb_lt _ _)) by lia. reflexivity.
  - intros ->. unfold analyze_vector_table.
    change (0 + 4) with 4 in Erv. rewrite Esp, Erv. cbn [bind].
    eexists. split; [reflexivity|].
    rewrite E. unfold vt_plausible. cbn [msp_ok flash_ok thumb].
    f_equal.
    repeat match goal with |- context [?a <=? ?b] => destruct (a <=? b) end;
      repeat match goal with |- context [?a <? ?b] => destruct (a <? b) end;
      destruct (truthy _); reflexivity.
Qed.

Lemma C4_plausible_vector_table_witness :
  is_valid_vt vt_header 0 = Ok true /\
  exists vt, analyze_vector_table vt_header = Ok vt /\ vt_plausible vt = true.
Proof.
  destruct (C4_plausible_vector_table vt_header 0) as
    (sp & rv & Esp & Erv & _ & Hiff & Htop); [lia | vm_compute; discriminate |].
  assert (Hv : is_valid_vt vt_header 0 = Ok true).
  { apply Hiff. vm_compute in Esp. vm_compute in Erv.
    injection Esp as <-. injection Erv as <-.
    split; [split; vm_compute; discriminate|].
    split; [split; [vm_compute; discriminate | vm_compute; reflexivity]|].
    vm_compute. reflexivity. }
  split; [exact Hv|].
  destruct (Htop eq_refl) as (vt & Ea & Ep). exists vt. split; [exact Ea|].
  rewrite Hv in Ep. now injection Ep.
Defined.

(** C7: a probe whose eight bytes do not fit in the buffer is answered
    "invalid" by the resolver's validator, but the top-level analysis of
    the vector table at offset 0 raises [struct.error] on such a buffer. *)
Theorem C7_short_buffer (data : bytes) (offset : Z) :
  len data < offset + 8 ->
  is_valid_vt data offset = Ok false /\
  (offset = 0 -> analyze_vector_table data = Raise StructError).
Proof.
  intros H. split; [apply is_valid_vt_short; lia|]. intros ->.
  unfold analyze_vector_table.
  destruct (Z_lt_dec (len data) 4) as [H4|H4].
  - rewrite u32le_short by lia. reflexivity.
  - rewrite (u32le_ok data 0) by lia. cbn [bind].
    rewrite u32le_short by lia. reflexivity.
Qed.

Lemma C7_short_buffer_witness :
  is_valid_vt short_file 0 = Ok false /\
  analyze_vector_table short_file = Raise StructError.
Proof.
  destruct (C7_short_buffer short_file 0) as [Hv Ha];
    [vm_compute; reflexivity|].
  split; [exact Hv | exact (Ha eq_refl)].
Defined.

(** ** Searching the buffer *)

Lemma starts_with_iff (n d : bytes) :
  starts_with n d = true <-> exists post, d = n ++ post.
Proof.
  revert d. induction n as [|x n IH]; intros d.
  - cbn. split; eauto.
  - destruct d as [|y d]; cbn.
    + split; [discriminate | intros [p Hp]; discriminate].
    + rewrite andb_true_iff, IH. split.
      * intros [Hxy [p ->]]. apply byte_dec_bl in Hxy as ->. eauto.
      * intros [p Hp]. injection Hp as -> ->.
        split; [now apply byte_dec_lb | eauto].
Qed.

Lemma count_from_nonneg (n : bytes) (k : nat) (d : bytes) :
  0 <= count_from n k d.
Proof.
  revert k. induction d as [|x d IH]; intros k; cbn [count_from]; [lia|].
  destruct k; [|apply IH].
  destruct (starts_with n (x :: d)); [|apply IH].
  specialize (IH (List.length n - 1)%nat). lia.
Qed.

(** [data.count(needle) > 0] says that the needle occurs in the buffer. *)
Lemma count_positive_iff (data n : bytes) :
  n <> [] -> ((bytes_count data n >? 0) = true <-> occurs n data).
Proof.
  intros Hn. unfold bytes_count. rewrite Z.gtb_ltb, Z.ltb_lt. split.
  - induction data as [|x d IH]; cbn [count_from]; [lia|].
    destruct (starts_with n (x :: d)) eqn:E.
    + intros _. apply starts_with_iff in E as [post ->]. now exists [], post.
    + intros H. destruct (IH H) as (pre & post & ->).
      now exists (x :: pre), post.
  - intros (pre & post & ->). induction pre as [|y pre IH].
    + destruct n as [|x n]; [congruence|]. cbn [app count_from].
      rewrite (proj2 (starts_with_iff (x :: n) (x :: n ++ post)))
        by (now exists post).
      pose proof (count_from_nonneg (x :: n)
                    (List.length (x :: n) - 1) (n ++ post)). lia.
    + cbn [app count_from].
      destruct (starts_with n _).
      * pose proof (count_from_nonneg n (List.length n - 1)
                      (pre ++ n ++ post)). lia.
      * exact IH.
Qed.

Lemma needle_nonempty (b d vt : Z) : needle b d vt <> [].
Proof. unfold needle. cbn [le_bytes]. discriminate. Qed.

Lemma count_zero_not_occurs (data n : bytes) :
  n <> [] -> (bytes_count data n >? 0) = false -> ~ occurs n data.
Proof.
  intros Hn H Ho. apply (count_positive_iff data n Hn) in Ho. congruence.
Qed.

(** ** Link base resolver *)

Lemma known_bl_range (b : Z) : In b KNOWN_BL_OFFSETS -> 0 <= b <= 0x8000.
Proof. cbn. intuition (subst; lia). Qed.

Lemma known_bl_sorted : StronglySorted Z.lt KNOWN_BL_OFFSETS.
Proof. repeat constructor; lia. Qed.

Lemma sorted_before (offs pre post : list Z) (b : Z) :
  StronglySorted Z.lt offs -> offs = pre ++ b :: post ->
  Forall (fun x => x < b) pre /\
  (forall b', In b' offs -> b' < b -> In b' pre).
Proof.
  revert offs. induction pre as [|p pre IH]; intros offs Hs ->.
  - split; [constructor|]. intros b' [<-|Hin] Hlt; [lia|].
    apply StronglySorted_inv in Hs as [_ Hall].
    rewrite Forall_forall in Hall. specialize (Hall _ Hin). lia.
  - cbn in Hs. apply StronglySorted_inv in Hs as [Hs Hall].
    destruct (IH _ Hs eq_refl) as [Hlt Hin]. split.
    + constructor; [|exact Hlt].
      rewrite Forall_forall in Hall. apply Hall, in_elt.
    + intros b' [<-|Hb'] Hb; [now left | right; auto].
Qed.

Lemma pack_I_candidate (b d vt : Z) :
  addressable d -> 0 <= b <= 0x8000 -> 0 <= vt <= 0x8000 ->
  pack_I (FLASH_BASE + b + d - vt) = Ok (needle b d vt).
Proof.
  unfold addressable, FLASH_BASE, pack_I, needle. intros Hd Hb Hv.
  rewrite (proj2 (Z.ltb_ge _ 0)) by lia.
  rewrite (proj2 (Z.ltb_ge _ _)) by lia. reflexivity.
Qed.

(** The loop of the primary method returns at the first candidate whose
    needle occurs. *)
Lemma xref_scan_first (data : bytes) (d vt : Z) (pre post : list Z) (b : Z) :
  addressable d -> 0 <= vt <= 0x8000 ->
  Forall (fun x => 0 <= x <= 0x8000) (pre ++ b :: post) ->
  Forall (fun x => ~ occurs (needle x d vt) data) pre ->
  occurs (needle b d vt) data ->
  xref_scan data d vt (pre ++ b :: post) = Ok (Some (FLASH_BASE + b)).
Proof.
  intros Hd Hv Hr Hpre Hb. induction pre as [|p pre IH]; cbn [app xref_scan].
  - apply Forall_inv in Hr. rewrite pack_I_candidate by assumption.
    cbn [bind].
    now rewrite (proj2 (count_positive_iff data _ (needle_nonempty b d vt)) Hb).
  - cbn [app] in Hr. pose proof (Forall_inv Hr) as Hp.
    apply Forall_inv_tail in Hr.
    rewrite pack_I_candidate by assumption. cbn [bind].
    destruct (bytes_count data (needle p d vt) >? 0) eqn:E.
    + apply (count_positive_iff data _ (needle_nonempty p d vt)) in E.
      now apply Forall_inv in Hpre.
    + apply IH; [exact Hr | now apply Forall_inv_tail in Hpre].
Qed.

Lemma xref_scan_none (data : bytes) (d vt : Z) (offs : list Z) :
  addressable d -> 0 <= vt <= 0x8000 ->
  Forall (fun x => 0 <= x <= 0x8000) offs ->
  Forall (fun x => ~ occurs (needle x d vt) data) offs ->
  xref_scan data d vt offs = Ok None.
Proof.
  intros Hd Hv Hr Hno. induction offs as [|p offs IH]; [reflexivity|].
  cbn [xref_scan]. rewrite pack_I_candidate;
    [|assumption|now apply Forall_inv in Hr|assumption].
  cbn [bind]. destruct (bytes_count data (needle p d vt) >? 0) eqn:E.
  - apply (count_positive_iff data _ (needle_nonempty p d vt)) in E.
    now apply Forall_inv in Hno.
  - apply IH; eapply Forall_inv_tail; eassumption.
Qed.

(** What a returned candidate tells: its needle occurs, and the needle of
    no candidate tried before it does. *)
Lemma xref_scan_some_inv (data : bytes) (d vt : Z) (offs : list Z) (lb : Z) :
  addressable d -> 0 <= vt <= 0x8000 ->
  Forall (fun x => 0 <= x <= 0x8000) offs ->
  xref_scan data d vt offs = Ok (Some lb) ->
  exists pre b post,
    offs = pre ++ b :: post /\ lb = FLASH_BASE + b /\
    occurs (needle b d vt) data /\
    Forall (fun x => ~ occurs (needle x d vt) data) pre.
Proof.
  intros Hd Hv Hr. induction offs as [|p offs IH]; [discriminate|].
  cbn [xref_scan]. rewrite pack_I_candidate;
    [|assumption|now apply Forall_inv in Hr|assumption].
  cbn [bind]. destruct (bytes_count data (needle p d vt) >? 0) eqn:E.
  - intros H. apply Ok_inj, Some_inj in H. subst lb. exists [], p, offs.
    split; [reflexivity|]. split; [reflexivity|]. split; [|constructor].
    now apply (count_positive_iff data _ (needle_nonempty p d vt)).
  - intros H. destruct (IH (Forall_inv_tail Hr) H)
      as (pre & b & post & -> & -> & Hb & Hpre).
    exists (p :: pre), b, post.
    split; [reflexivity|]. split; [reflexivity|]. split; [assumption|].
    constructor; [|assumption].
    now apply count_zero_not_occurs; [apply needle_nonempty|].
Qed.

Lemma vt_scan_in (data : bytes) (offs : list Z) :
  Forall (fun x => 0 <= x) offs ->
  exists v, vt_scan data offs = Ok v /\ (v = 0 \/ In v offs).
Proof.
  intros Hr. induction offs as [|p offs IH]; cbn [vt_scan]; [eauto|].
  destruct (is_valid_vt_total data p (Forall_inv Hr)) as [v ->]. cbn [bind].
  destruct v; [exists p; cbn; auto|].
  destruct (IH (Forall_inv_tail Hr)) as (v & -> & [->|Hin]);
    eexists; split; eauto; cbn; auto.
Qed.

(** Step 1 always yields one of the enumerated offsets. *)
Lemma vt_file_offset_total (data : bytes) :
  exists vt, vt_file_offset data = Ok vt /\ In vt KNOWN_BL_OFFSETS.
Proof.
  unfold vt_file_offset.
  destruct (is_valid_vt_total data 0) as [v0 ->]; [lia|]. cbn [bind].
  destruct v0; cbn [negb]; [exists 0; cbn; auto|].
  destruct (vt_scan_in data (tl KNOWN_BL_OFFSETS)) as (v & -> & Hv).
  - cbn. repeat constructor; lia.
  - exists v. split; [reflexivity|]. destruct Hv as [->|Hv]; cbn in *; tauto.
Qed.

Lemma known_bl_Forall_range :
  Forall (fun x => 0 <= x <= 0x8000) KNOWN_BL_OFFSETS.
Proof. rewrite Forall_forall. exact known_bl_range. Qed.

(** The resolver returns what the primary method accepted. *)
Lemma find_link_base_primary (data : bytes) (d vt lb : Z) :
  vt_file_offset data = Ok vt ->
  xref_scan data d vt KNOWN_BL_OFFSETS = Ok (Some lb) ->
  find_link_base data (Some d) = Ok lb.
Proof.
  intros Hvt Hx. unfold find_link_base. rewrite Hvt. cbn [bind].
  rewrite Hx. reflexivity.
Qed.

(** Candidate [b] is the one returned exactly when its needle occurs and
    the needle of no smaller candidate does. *)
Lemma xref_scan_accepts (data : bytes) (d vt b : Z) :
  addressable d -> 0 <= vt <= 0x8000 -> In b KNOWN_BL_OFFSETS ->
  xref_scan data d vt KNOWN_BL_OFFSETS = Ok (Some (FLASH_BASE + b)) <->
  occurs (needle b d vt) data /\
  (forall b', In b' KNOWN_BL_OFFSETS -> b' < b ->
              ~ occurs (needle b' d vt) data).
Proof.
  intros Hd Hv Hb. split.
  - intros H.
    destruct (xref_scan_some_inv _ _ _ _ _ Hd Hv known_bl_Forall_range H)
      as (pre & b0 & post & Hsplit & Hlb & Ho & Hpre).
    assert (b0 = b) as -> by lia. split; [exact Ho|].
    intros b' Hb' Hlt.
    destruct (sorted_before _ _ _ _ known_bl_sorted Hsplit) as [_ Hin].
    rewrite Forall_forall in Hpre. apply Hpre, Hin; assumption.
  - intros [Ho Hearlier].
    destruct (in_split _ _ Hb) as (pre & post & Hsplit).
    destruct (sorted_before _ _ _ _ known_bl_sorted Hsplit) as [Hlt _].
    rewrite Hsplit. apply xref_scan_first; try assumption.
    + rewrite <- Hsplit. exact known_bl_Forall_range.
    + rewrite Forall_forall in *. intros x Hx.
      apply Hearlier; [|now apply Hlt].
      rewrite Hsplit. apply in_or_app. now left.
Qed.

(** C1: with a dictionary at file offset [d], the primary method tries the
    enumerated offsets in ascending order; candidate [b] is accepted
    exactly when the little-endian encoding of
    [0x08000000 + b + d - vt_file_offset] occurs in the buffer and that of
    no smaller candidate does, and the resolver then returns
    [0x08000000 + b]; in particular it does when [b] is the only candidate
    whose needle occurs. *)
Theorem C1_first_matching_candidate (data : bytes) (d : Z) :
  8 <= len data -> addressable d ->
  exists vt,
    vt_file_offset data = Ok vt /\
    forall b, In b KNOWN_BL_OFFSETS ->
      (xref_scan data d vt KNOWN_BL_OFFSETS = Ok (Some (FLASH_BASE + b)) <->
         occurs (needle b d vt) data /\
         (forall b', In b' KNOWN_BL_OFFSETS -> b' < b ->
                     ~ occurs (needle b' d vt) data)) /\
      (occurs (needle b d vt) data ->
       (forall b', In b' KNOWN_BL_OFFSETS -> b' < b ->
                   ~ occurs (needle b' d vt) data) ->
       find_link_base data (Some d) = Ok (FLASH_BASE + b)) /\
      (occurs (needle b d vt) data ->
       (forall b', In b' KNOWN_BL_OFFSETS -> b' <> b ->
                   ~ occurs (needle b' d vt) data) ->
       find_link_base data (Some d) = Ok (FLASH_BASE + b)).
Proof.
  intros _ Hd. destruct (vt_file_offset_total data) as (vt & Hvt & Hin).
  exists vt. split; [exact Hvt|]. intros b Hb.
  pose proof (known_bl_range vt Hin) as Hv.
  pose proof (xref_scan_accepts data d vt b Hd Hv Hb) as Hacc.
  split; [exact Hacc|]. split.
  - intros Ho He. apply (find_link_base_primary data d vt); [exact Hvt|].
    apply Hacc. now split.
  - intros Ho He. apply (find_link_base_primary data d vt); [exact Hvt|].
    apply Hacc. split; [exact Ho|]. intros b' Hb' Hlt. apply He; [exact Hb'|lia].
Qed.

Lemma C1_first_matching_candidate_witness :
  find_link_base sample_image (Some 12) = Ok 0x08003000.
Proof.
  destruct (C1_first_matching_candidate sample_image 12) as (vt & Hvt & H);
    [vm_compute; discriminate | unfold addressable; vm_compute; split; discriminate |].
  vm_compute in Hvt. injection Hvt as <-.
  destruct (H 0x3000) as (_ & _ & Honly); [cbn; tauto|].
  apply Honly.
  - exists vt_header, sample_stream. reflexivity.
  - intros b' Hb' Hne.
    apply count_zero_not_occurs; [apply needle_nonempty|].
    cbn in Hb'.
    repeat (destruct Hb' as [<-|Hb']; [try congruence; vm_compute; reflexivity|]).
    contradiction.
Defined.

(** C2: when no dictionary was located, or no candidate's needle occurs,
    the resolver returns [0x08000000 + vt_file_offset] if that offset is
    non-zero and otherwise [(reset & 0xFFFFFFFE) & 0xFFFFF000]; on a buffer
    of at least 8 bytes it returns a value in both cases. *)
Theorem C2_fallback (data : bytes) (dict : option Z) :
  8 <= len data ->
  (dict = None \/
   exists d, dict = Some d /\ addressable d /\
     forall vt b, vt_file_offset data = Ok vt -> In b KNOWN_BL_OFFSETS ->
                  ~ occurs (needle b d vt) data) ->
  exists vt w,
    vt_file_offset data = Ok vt /\ u32le data 4 = Ok w /\
    find_link_base data dict =
      Ok (if vt =? 0 then Z.land (Z.land w 0xFFFFFFFE) 0xFFFFF000
          else FLASH_BASE + vt).
Proof.
  intros H8 Hdict. destruct (vt_file_offset_total data) as (vt & Hvt & Hin).
  pose proof (known_bl_range vt Hin) as Hv.
  exists vt, (le_word (firstn 4 (skipn (Z.to_nat 4) data))).
  split; [exact Hvt|]. split; [apply u32le_ok; lia|].
  unfold find_link_base. rewrite Hvt. cbn [bind].
  assert (Hp : match dict with
               | Some d => xref_scan data d vt KNOWN_BL_OFFSETS
               | None => Ok None
               end = Ok None).
  { destruct Hdict as [->|(d & -> & Hd & Hno)]; [reflexivity|].
    apply xref_scan_none; [assumption..|exact known_bl_Forall_range|].
    rewrite Forall_forall. intros b Hb. now apply Hno. }
  rewrite Hp. cbn [bind]. rewrite Z.gtb_ltb.
  destruct (Z.eq_dec vt 0) as [->|Hne].
  - cbn [Z.ltb Z.compare Z.eqb]. rewrite u32le_ok by lia. reflexivity.
  - rewrite (proj2 (Z.ltb_lt 0 vt)) by lia.
    rewrite (proj2 (Z.eqb_neq vt 0)) by assumption. reflexivity.
Qed.

Lemma C2_fallback_witness :
  find_link_base vt_header None = Ok 0x08003000 /\
  find_link_base (repeat x00 4096 ++ vt_header) None = Ok 0x08001000.
Proof.
  split.
  - destruct (C2_fallback vt_header None) as (vt & w & Hvt & Hw & H);
      [vm_compute; discriminate | now left |].
    vm_compute in Hvt. vm_compute in Hw.
    injection Hvt as <-. injection Hw as <-. exact H.
  - destruct (C2_fallback (repeat x00 4096 ++ vt_header) None)
      as (vt & w & Hvt & Hw & H); [vm_compute; discriminate | now left |].
    vm_compute in Hvt. injection Hvt as <-. exact H.
Defined.

(** C3 as stated fails: with a plausible table both at offset 0 and at
    offset 0x1000, the first matching non-zero alternate is 0x1000 but the
    vector-table file offset is 0. *)
Lemma C3_counterexample :
  is_valid_vt two_tables 0 = Ok true /\
  is_valid_vt two_tables 0x1000 = Ok true /\
  spec_vt_file_offset two_tables = Ok 0x1000 /\
  vt_file_offset two_tables = Ok 0 /\
  vt_file_offset two_tables <> spec_vt_file_offset two_tables.
Proof.
  assert (E1 : spec_vt_file_offset two_tables = Ok 0x1000)
    by (vm_compute; reflexivity).
  assert (E2 : vt_file_offset two_tables = Ok 0) by (vm_compute; reflexivity).
  split; [vm_compute; reflexivity|]. split; [vm_compute; reflexivity|].
  split; [exact E1|]. split; [exact E2|].
  rewrite E1, E2. discriminate.
Qed.

Lemma vt_scan_first (data : bytes) (pre post : list Z) (off : Z) :
  Forall (fun x => is_valid_vt data x = Ok false) pre ->
  is_valid_vt data off = Ok true ->
  vt_scan data (pre ++ off :: post) = Ok off.
Proof.
  intros Hpre Hoff. induction pre as [|p pre IH]; cbn [app vt_scan].
  - rewrite Hoff. reflexivity.
  - rewrite (Forall_inv Hpre). cbn [bind]. apply IH.
    now apply Forall_inv_tail in Hpre.
Qed.

Lemma vt_scan_none (data : bytes) (offs : list Z) :
  Forall (fun x => is_valid_vt data x = Ok false) offs ->
  vt_scan data offs = Ok 0.
Proof.
  intros H. induction offs as [|p offs IH]; [reflexivity|].
  cbn [vt_scan]. rewrite (Forall_inv H). cbn [bind].
  apply IH. now apply Forall_inv_tail in H.
Qed.

(** C3, amended: a plausible table at offset 0 makes the vector-table file
    offset 0 and the alternates are not probed; otherwise it is the first
    non-zero enumerated offset, in ascending order, with a plausible table,
    and 0 when there is none. *)
Theorem C3_vt_file_offset (data : bytes) :
  (is_valid_vt data 0 = Ok true \/ is_valid_vt data 0 = Ok false) /\
  (is_valid_vt data 0 = Ok true -> vt_file_offset data = Ok 0) /\
  (is_valid_vt data 0 = Ok false ->
   forall off, In off (tl KNOWN_BL_OFFSETS) ->
     is_valid_vt data off = Ok true ->
     (forall o, In o (tl KNOWN_BL_OFFSETS) -> o < off ->
                is_valid_vt data o = Ok false) ->
     vt_file_offset data = Ok off) /\
  (is_valid_vt data 0 = Ok false ->
   (forall o, In o (tl KNOWN_BL_OFFSETS) -> is_valid_vt data o = Ok false) ->
   vt_file_offset data = Ok 0).
Proof.
  split.
  { destruct (is_valid_vt_total data 0) as [[|] ->]; [lia|auto..]. }
  split; [|split].
  - intros H. unfold vt_file_offset. rewrite H. reflexivity.
  - intros H off Hin Hoff Hearlier. unfold vt_file_offset.
    rewrite H. cbn [bind negb].
    destruct (in_split _ _ Hin) as (pre & post & Hsplit).
    assert (Hs : StronglySorted Z.lt (tl KNOWN_BL_OFFSETS))
      by (cbn; repeat constructor; lia).
    destruct (sorted_before _ _ _ _ Hs Hsplit) as [Hlt _].
    rewrite Hsplit. apply vt_scan_first; [|exact Hoff].
    rewrite Forall_forall in *. intros x Hx.
    apply Hearlier; [|now apply Hlt].
    rewrite Hsplit. apply in_or_app. now left.
  - intros H Hnone. unfold vt_file_offset. rewrite H. cbn [bind negb].
    apply vt_scan_none. now rewrite Forall_forall.
Qed.

Lemma C3_vt_file_offset_witness :
  vt_file_offset two_tables = Ok 0 /\
  vt_file_offset (repeat x00 4096 ++ vt_header) = Ok 0x1000.
Proof.
  split.
  - destruct (C3_vt_file_offset two_tables) as (_ & H0 & _ & _).
    apply H0. vm_compute. reflexivity.
  - destruct (C3_vt_file_offset (repeat x00 4096 ++ vt_header))
      as (_ & _ & H1 & _).
    apply H1; [vm_compute; reflexivity | cbn; tauto | vm_compute; reflexivity |].
    intros o Ho Hlt. cbn in Ho.
    repeat (destruct Ho as [<-|Ho]; [lia|]). contradiction.
Defined.

(** ** Offset classifier *)

Lemma land_page_aligned (x : Z) : Z.land x 0xFFFFF000 mod 0x1000 = 0.
Proof.
  change 0x1000 with (2 ^ 12). rewrite <- Z.land_ones by lia.
  rewrite <- Z.land_assoc. change (Z.land 0xFFFFF000 (Z.ones 12)) with 0.
  apply Z.land_0_r.
Qed.

Lemma offset_label_known (off : Z) :
  In off KNOWN_BL_OFFSETS ->
  exists kib label,
    In (off, kib, label) KNOWN_OFFSETS /\
    offset_label off = (kib, label) /\
    label <> "Non-standard offset"%string.
Proof.
  intros H. cbn in H.
  repeat (destruct H as [<-|H];
          [eexists _, _; split; [|split; [reflexivity|discriminate]];
           cbn; tauto|]).
  contradiction.
Qed.

Lemma offset_label_scan_other (tbl : list (Z * Z * string)) (off : Z) :
  ~ In off (map (fun e => fst (fst e)) tbl) ->
  offset_label_scan tbl off = (off / 1024, "Non-standard offset"%string).
Proof.
  induction tbl as [|[[o k] l] tbl IH]; intros H; [reflexivity|].
  cbn [offset_label_scan]. cbn in H.
  rewrite (proj2 (Z.eqb_neq o off)) by tauto. apply IH. tauto.
Qed.

Lemma xref_scan_total (data : bytes) (d vt : Z) (offs : list Z) :
  addressable d -> 0 <= vt <= 0x8000 ->
  Forall (fun x => 0 <= x <= 0x8000) offs ->
  xref_scan data d vt offs = Ok None \/
  exists b, In b offs /\ xref_scan data d vt offs = Ok (Some (FLASH_BASE + b)).
Proof.
  intros Hd Hv Hr. induction offs as [|p offs IH]; [now left|].
  cbn [xref_scan]. rewrite pack_I_candidate;
    [|assumption|now apply Forall_inv in Hr|assumption].
  cbn [bind]. destruct (bytes_count data (needle p d vt) >? 0).
  - right. exists p. split; [now left | reflexivity].
  - destruct (IH (Forall_inv_tail Hr)) as [E|(b & Hb & E)]; [now left|].
    right. exists b. split; [now right | exact E].
Qed.

(** On a buffer of at least 8 bytes the resolver returns a link base:
    the flash base plus an enumerated offset, or the masked reset
    vector. *)
Lemma find_link_base_total (data : bytes) (dict : option Z) :
  8 <= len data -> dict_ok dict ->
  exists lb,
    find_link_base data dict = Ok lb /\
    ((exists b, In b KNOWN_BL_OFFSETS /\ lb = FLASH_BASE + b) \/
     (exists w, u32le data 4 = Ok w /\
                lb = Z.land (Z.land w 0xFFFFFFFE) 0xFFFFF000)).
Proof.
  intros H8 Hd. destruct (vt_file_offset_total data) as (vt & Hvt & Hin).
  pose proof (known_bl_range vt Hin) as Hv.
  unfold find_link_base. rewrite Hvt. cbn [bind].
  assert (Hp : (match dict with
                | Some d => xref_scan data d vt KNOWN_BL_OFFSETS
                | None => Ok None
                end = Ok None) \/
               exists b, In b KNOWN_BL_OFFSETS /\
                 match dict with
                 | Some d => xref_scan data d vt KNOWN_BL_OFFSETS
                 | None => Ok None
                 end = Ok (Some (FLASH_BASE + b))).
  { destruct dict as [d|]; [|now left].
    apply xref_scan_total; [exact Hd|exact Hv|exact known_bl_Forall_range]. }
  destruct Hp as [->|(b & Hb & ->)]; cbn [bind].
  - rewrite Z.gtb_ltb. destruct (0 <? vt) eqn:E.
    + eexists. split; [reflexivity|]. left. eauto.
    + rewrite u32le_ok by lia. cbn [bind].
      eexists. split; [reflexivity|]. right.
      eexists. split; reflexivity.
  - eexists. split; [reflexivity|]. left. eauto.
Qed.

(** C8: the bootloader offset derived from the resolved link base is
    [link_base - 0x08000000]; it is an enumerated value or a multiple of
    0x1000; the classifier gives an enumerated value its own label and
    every other value the label "Non-standard offset" with size
    [offset / 1024]. *)
Theorem C8_bootloader_offset (data : bytes) (dict : option Z) :
  8 <= len data -> dict_ok dict ->
  exists lb,
    find_link_base data dict = Ok lb /\
    forall off, bootloader_offset lb = Some off ->
      off = lb - FLASH_BASE /\
      (In off KNOWN_BL_OFFSETS \/ off mod 0x1000 = 0) /\
      (In off KNOWN_BL_OFFSETS ->
       exists kib label,
         In (off, kib, label) KNOWN_OFFSETS /\
         offset_label off = (kib, label) /\
         label <> "Non-standard offset"%string) /\
      (~ In off KNOWN_BL_OFFSETS ->
       offset_label off = (off / 1024, "Non-standard offset"%string)).
Proof.
  intros H8 Hd.
  destruct (find_link_base_total data dict H8 Hd) as (lb & Hlb & Hshape).
  exists lb. split; [exact Hlb|]. intros off Hoff.
  unfold bootloader_offset in Hoff.
  destruct (truthy lb); [|discriminate]. apply Some_inj in Hoff. subst off.
  split; [reflexivity|]. split; [|split].
  - destruct Hshape as [(b & Hb & ->)|(w & _ & ->)].
    + left. now replace (FLASH_BASE + b - FLASH_BASE) with b by lia.
    + right. unfold FLASH_BASE.
      change 0x08000000 with (32768 * 0x1000).
      rewrite <- Z.add_opp_r, <- Z.mul_opp_l, Z.mod_add by lia.
      apply land_page_aligned.
  - apply offset_label_known.
  - intros Hn. apply (offset_label_scan_other KNOWN_OFFSETS). exact Hn.
Qed.

Lemma C8_bootloader_offset_witness :
  exists lb off,
    find_link_base sample_image (Some 12) = Ok lb /\
    bootloader_offset lb = Some off /\
    offset_label off
    = (12, "Creality K1 / K1 SE / K1 Max (GD32F303)"%string).
Proof.
  destruct (C8_bootloader_offset sample_image (Some 12)) as (lb & Hlb & H);
    [vm_compute; discriminate | cbn; unfold addressable; vm_compute; split; discriminate |].
  vm_compute in Hlb. injection Hlb as <-.
  exists 0x08003000, 0x3000. split; [vm_compute; reflexivity|].
  split; [reflexivity|].
  destruct (H 0x3000 eq_refl) as (_ & _ & Hknown & _).
  destruct Hknown as (kib & label & _ & E & _); [cbn; tauto|].
  rewrite E. vm_compute in E. injection E as <- <-. reflexivity.
Defined.

(** C10: there is a buffer of 8 bytes, with no dictionary and no plausible
    table at any enumerated offset, on which the last-resort fallback
    returns a link base below 0x08000000 and the derived bootloader offset
    is negative; on 8 zero bytes the link base is 0, which [main] treats
    as no link base at all. *)
Theorem C10_link_base_below_flash :
  (exists data lb off,
     8 <= len data /\
     (forall lib : PyLib, @extract_dictionary lib data = Ok None) /\
     (forall o, In o KNOWN_BL_OFFSETS -> is_valid_vt data o = Ok false) /\
     find_link_base data None = Ok lb /\
     lb < FLASH_BASE /\
     bootloader_offset lb = Some off /\
     off = lb - FLASH_BASE /\
     off < 0) /\
  find_link_base zero_image None = Ok 0 /\
  0 < FLASH_BASE /\
  bootloader_offset 0 = None.
Proof.
  split; [|split; [vm_compute; reflexivity | split; reflexivity]].
  exists low_reset, 0x1000, (0x1000 - FLASH_BASE).
  split; [vm_compute; discriminate|].
  split; [intros lib; reflexivity|].
  split.
  { intros o Ho. cbn in Ho.
    repeat (destruct Ho as [<-|Ho]; [vm_compute; reflexivity|]).
    contradiction. }
  split; [vm_compute; reflexivity|]. split; [vm_compute; reflexivity|].
  split; [vm_compute; reflexivity|]. split; vm_compute; reflexivity.
Qed.

(** ** Dictionary locator *)

Lemma getitem_ok (data : bytes) (i : Z) :
  0 <= i < len data -> exists v, getitem data i = Ok v.
Proof.
  intros Hi. unfold getitem. cbv zeta.
  rewrite !(proj2 (Z.ltb_ge i 0)) by lia.
  rewrite (proj2 (Z.leb_gt (len data) i)) by lia. cbn [orb].
  destruct (nth_error data (Z.to_nat i)) eqn:E; [eauto|].
  apply nth_error_None in E. unfold len in Hi. lia.
Qed.

Lemma range_In (lo hi i : Z) : In i (range lo hi) <-> lo <= i < hi.
Proof.
  unfold range. rewrite in_map_iff. split.
  - intros (k & <- & Hk). apply in_seq in Hk. lia.
  - intros H. exists (Z.to_nat (i - lo)). split; [lia|].
    apply in_seq. lia.
Qed.

Lemma range_nil (lo hi : Z) : hi <= lo -> range lo hi = [].
Proof.
  intros H. unfold range. replace (Z.to_nat (hi - lo)) with O by lia.
  reflexivity.
Qed.

Lemma range_cons (lo hi : Z) :
  lo < hi -> range lo hi = lo :: range (lo + 1) hi.
Proof.
  intros H. unfold range.
  replace (Z.to_nat (hi - lo)) with (S (Z.to_nat (hi - (lo + 1)))) by lia.
  cbn [seq map]. f_equal; [lia|].
  rewrite <- seq_shift, map_map. apply map_ext. intros k. lia.
Qed.

Section LocatorProperties.

Context {lib : PyLib}.

Lemma no_signature_total (data : bytes) (i : Z) :
  0 <= i -> i + 1 < len data -> exists b, no_signature data i = Ok b.
Proof.
  intros H0 H1. unfold no_signature.
  destruct (getitem_ok data i) as [b0 ->]; [lia|]. cbn [bind].
  destruct (negb (b0 =? 0x78)); [eauto|].
  destruct (getitem_ok data (i + 1)) as [b1 ->]; [lia|]. cbn [bind]. eauto.
Qed.

(** One turn of the loop: an accepted position ends the scan, any other
    position hands over to the rest. *)
Lemma extract_scan_cons (data : bytes) (i : Z) (rest : list Z) :
  0 <= i -> i + 1 < len data ->
  extract_scan data (i :: rest) =
    match accepted data i with
    | Some obj => Ok (Some (obj, i))
    | None => extract_scan data rest
    end.
Proof.
  intros H0 H1. cbn [extract_scan]. unfold accepted.
  destruct (no_signature_total data i H0 H1) as [b ->]. cbn [bind].
  destruct b; [reflexivity|].
  destruct (try_candidate data i) as [[obj|]|e]; reflexivity.
Qed.

Lemma extract_scan_spec (data : bytes) (positions : list Z) :
  Forall (fun i => 0 <= i /\ i + 1 < len data) positions ->
  extract_scan data positions = Ok (first_accepted data positions).
Proof.
  intros H. induction positions as [|i rest IH]; [reflexivity|].
  destruct (Forall_inv H) as [H0 H1].
  rewrite extract_scan_cons by assumption. cbn [first_accepted].
  destruct (accepted data i); [reflexivity|].
  apply IH. now apply Forall_inv_tail in H.
Qed.

Lemma extract_dictionary_spec (data : bytes) :
  extract_dictionary data
  = Ok (first_accepted data (range 4 (len data - 10))).
Proof.
  apply extract_scan_spec. rewrite Forall_forall.
  intros i Hi. apply range_In in Hi. lia.
Qed.

Lemma first_accepted_range (data : bytes) (n : nat) :
  forall lo hi, Z.to_nat (hi - lo) = n ->
  forall obj i,
    first_accepted data (range lo hi) = Some (obj, i) <->
    lo <= i < hi /\ accepted data i = Some obj /\
    (forall j, lo <= j < i -> accepted data j = None).
Proof.
  induction n as [|n IH]; intros lo hi Hn obj i.
  - rewrite range_nil by lia. cbn [first_accepted].
    split; [discriminate | intros (H & _); lia].
  - rewrite range_cons by lia. cbn [first_accepted].
    destruct (accepted data lo) as [o|] eqn:E.
    + split.
      * intros H. apply Some_inj in H.
        assert (o = obj /\ lo = i) as [-> ->] by (now inversion H).
        split; [lia|]. split; [exact E|]. intros j Hj. lia.
      * intros (Hi & Ha & Hb). destruct (Z.eq_dec i lo) as [->|Hne].
        -- congruence.
        -- rewrite Hb in E by lia. discriminate.
    + rewrite (IH (lo + 1) hi) by lia. split.
      * intros (Hi & Ha & Hb). split; [lia|]. split; [exact Ha|].
        intros j Hj. destruct (Z.eq_dec j lo) as [->|Hne]; [exact E|].
        apply Hb. lia.
      * intros (Hi & Ha & Hb).
        assert (i <> lo) by congruence.
        split; [lia|]. split; [exact Ha|]. intros j Hj. apply Hb. lia.
Qed.

(** The locator returns [(obj, i)] exactly when [i] is the first
    accepted position of [range(4, len(data) - 10)]. *)
Lemma first_accepted_returned (data : bytes) (obj : json) (i : Z) :
  4 <= i < len data - 10 -> accepted data i = Some obj ->
  (forall j, 4 <= j < i -> accepted data j = None) ->
  extract_dictionary data = Ok (Some (obj, i)).
Proof.
  intros Hi Ha Hb. rewrite extract_dictionary_spec. f_equal.
  now apply (first_accepted_range data _ 4 (len data - 10) eq_refl).
Qed.

(** C5, amended: the locator examines exactly the positions [i] with
    [4 <= i < len(data) - 10], in ascending order: it returns [(obj, i)]
    exactly when [i] is the first accepted position of that range. *)
Theorem C5_scanned_positions (data : bytes) (obj : json) (i : Z) :
  extract_dictionary data = Ok (Some (obj, i)) <->
  4 <= i < len data - 10 /\ accepted data i = Some obj /\
  (forall j, 4 <= j < i -> accepted data j = None).
Proof.
  rewrite extract_dictionary_spec.
  rewrite <- (first_accepted_range data _ 4 (len data - 10) eq_refl obj i).
  split; [intros H; now apply Ok_inj in H | intros ->; reflexivity].
Qed.

(** C6: the locator never raises; a position without the signature, a
    candidate whose processing raises any exception and a candidate
    without a marker key all hand over to the next position; when no
    position is accepted the result is absence. *)
Theorem C6_locator_never_raises (data : bytes) :
  (exists r, extract_dictionary data = Ok r) /\
  (forall i rest, 0 <= i -> i + 1 < len data ->
     (no_signature data i = Ok true \/
      (exists e, try_candidate data i = Raise e) \/
      try_candidate data i = Ok None) ->
     extract_scan data (i :: rest) = extract_scan data rest) /\
  ((forall i, 4 <= i < len data - 10 -> accepted data i = None) ->
   extract_dictionary data = Ok None).
Proof.
  split; [rewrite extract_dictionary_spec; eauto|]. split.
  - intros i rest H0 H1 Hfail.
    rewrite extract_scan_cons by assumption. unfold accepted.
    destruct (no_signature_total data i H0 H1) as [b Hb]. rewrite Hb.
    destruct b; [reflexivity|].
    destruct Hfail as [Hs|[[e He]|Hn]].
    + congruence.
    + rewrite He. reflexivity.
    + rewrite Hn. reflexivity.
  - intros Hnone. rewrite extract_dictionary_spec. f_equal.
    destruct (first_accepted data (range 4 (len data - 10)))
      as [[obj i]|] eqn:E; [|reflexivity].
    apply (first_accepted_range data _ 4 (len data - 10) eq_refl) in E.
    destruct E as (Hi & Ha & _). rewrite Hnone in Ha by lia. discriminate.
Qed.

(** Whatever the library: when the bytes from an in-range position [i]
    carrying the signature decompress, decode and parse to an object whose
    [config] sub-mapping holds the three keys, and no earlier position is
    accepted, the locator returns that object with offset [i]. *)
Lemma parsed_object_returned (data : bytes) (i : Z) (raw : bytes) (text : str)
  (d cfg : list (str * json)) :
  4 <= i < len data - 10 ->
  no_signature data i = Ok false ->
  (forall j, 4 <= j < i -> accepted data j = None) ->
  zlib_decompress (slice_from data i) = Ok raw ->
  decode_utf8 raw = Ok text ->
  json_loads (str_strip text) = Ok (JDict d) ->
  dict_lookup d (str_lit "config") = Some (JDict cfg) ->
  dict_lookup cfg (str_lit "MCU") = Some (JStr (str_lit "gd32f303")) ->
  dict_lookup cfg (str_lit "CLOCK_FREQ") = Some (JInt 72000000) ->
  dict_lookup cfg (str_lit "SERIAL_BAUD") = Some (JInt 250000) ->
  extract_dictionary data = Ok (Some (JDict d, i)) /\
  py_get (JDict d) (str_lit "config") (JDict d) = Ok (JDict cfg) /\
  py_get (JDict cfg) (str_lit "MCU") JNull
  = Ok (JStr (str_lit "gd32f303")) /\
  any_in MARKER_KEYS (JDict cfg) = Ok true.
Proof.
  intros Hi Hsig Hearlier Hz Hu Hj Hc Hm _ _.
  assert (Hget : py_get (JDict d) (str_lit "config") (JDict d)
                 = Ok (JDict cfg)).
  { cbn [py_get]. rewrite Hc. reflexivity. }
  assert (Hany : any_in MARKER_KEYS (JDict cfg) = Ok true).
  { unfold MARKER_KEYS. cbn [any_in py_in]. rewrite Hm. reflexivity. }
  split; [|split; [exact Hget|split; [|exact Hany]]].
  - apply first_accepted_returned; try assumption.
    unfold accepted. rewrite Hsig. unfold try_candidate.
    rewrite Hz. cbn [bind]. rewrite Hu. cbn [bind]. rewrite Hj. cbn [bind].
    rewrite Hget. cbn [bind]. rewrite Hany. reflexivity.
  - cbn [py_get]. rewrite Hm. reflexivity.
Qed.

End LocatorProperties.

(** C5 as stated fails: a buffer that is itself an acceptable dictionary
    stream carries the signature at position 0 and is accepted there, yet
    the locator reports no dictionary, because position 0 is not in the
    range it scans. *)
Lemma C5_counterexample :
  @no_signature sample_stream 0 = Ok false /\
  @accepted Ref.lib sample_stream 0 = Some sample_dict /\
  ~ In 0 (range 4 (len sample_stream - 10)) /\
  @extract_dictionary Ref.lib sample_stream = Ok None.
Proof.
  split; [vm_compute; reflexivity|]. split; [vm_compute; reflexivity|].
  split; [rewrite range_In; lia|]. vm_compute. reflexivity.
Qed.

Lemma C5_scanned_positions_witness :
  4 <= 12 < len sample_image - 10 /\
  @accepted Ref.lib sample_image 12 = Some sample_dict.
Proof.
  pose proof (proj1 (@C5_scanned_positions Ref.lib sample_image sample_dict 12))
    as H.
  destruct H as (Hi & Ha & _); [vm_compute; reflexivity|].
  split; assumption.
Defined.

(** An accidental signature is passed over without an error. *)
Lemma C6_locator_never_raises_witness :
  @no_signature noisy_image 8 = Ok false /\
  @try_candidate Ref.lib noisy_image 8 = Raise ZlibError /\
  @extract_dictionary Ref.lib noisy_image = Ok None.
Proof.
  split; [vm_compute; reflexivity|]. split; [vm_compute; reflexivity|].
  destruct (@C6_locator_never_raises Ref.lib noisy_image) as (_ & _ & H).
  apply H. intros i Hi.
  assert (Hlen : len noisy_image = 30) by reflexivity.
  rewrite Hlen in Hi.
  assert (Hc : i = 4 \/ i = 5 \/ i = 6 \/ i = 7 \/ i = 8 \/ i = 9 \/
               i = 10 \/ i = 11 \/ i = 12 \/ i = 13 \/ i = 14 \/ i = 15 \/
               i = 16 \/ i = 17 \/ i = 18 \/ i = 19) by lia.
  repeat (destruct Hc as [->|Hc]; [vm_compute; reflexivity|]).
  subst i. vm_compute. reflexivity.
Defined.

(** ** The sample dictionary embedded anywhere *)

Lemma byte_val_inj (a b : byte) : byte_val a = byte_val b -> a = b.
Proof.
  unfold byte_val. intros H. apply N2Z.inj in H.
  pose proof (Byte.of_to_N a) as Ha. rewrite H, Byte.of_to_N in Ha.
  now apply Some_inj in Ha.
Qed.








(** * Further properties of the analysis functions *)

(** ** Packing and unpacking words *)

Lemma byte_val_of_Z (v : Z) : byte_val (byte_of_Z v) = v mod 256.
Proof.
  unfold byte_val, byte_of_Z.
  pose proof (Z.mod_pos_bound v 256 eq_refl) as Hm.
  destruct (Byte.of_N (Z.to_N (v mod 256))) as [b|] eqn:E.
  - apply Byte.to_of_N in E. rewrite E. lia.
  - apply Byte.of_N_None_iff in E. lia.
Qed.

Lemma le_word_le_bytes (n : nat) (v : Z) :
  0 <= v < 256 ^ Z.of_nat n -> le_word (le_bytes n v) = v.
Proof.
  revert v. induction n as [|n IH]; intros v Hv.
  - cbn in *. lia.
  - cbn [le_bytes le_word]. rewrite byte_val_of_Z.
    rewrite Nat2Z.inj_succ, Z.pow_succ_r in Hv by lia.
    rewrite IH.
    + pose proof (Z.div_mod v 256). lia.
    + split; [apply Z.div_pos; lia|].
      apply Z.div_lt_upper_bound; lia.
Qed.




(** X2: for one dictionary offset, the candidates of the primary method
    have pairwise distinct needles. *)
Theorem needles_distinct (d vt b b' : Z) :
  addressable d -> 0 <= vt <= 0x8000 ->
  In b KNOWN_BL_OFFSETS -> In b' KNOWN_BL_OFFSETS ->
  needle b d vt = needle b' d vt -> b = b'.
Proof.
  intros Hd Hv Hb Hb' H. apply known_bl_range in Hb, Hb'.
  unfold addressable, FLASH_BASE in Hd.
  apply (f_equal le_word) in H. unfold needle, FLASH_BASE in H.
  rewrite !le_word_le_bytes in H
    by (change (256 ^ Z.of_nat 4) with 4294967296; lia).
  lia.
Qed.

Lemma needles_distinct_witness :
  needle 0x3000 12 0 <> needle 0x2000 12 0.
Proof.
  intros H.
  assert (E : 0x3000 = 0x2000).
  { apply (needles_distinct 12 0); [unfold addressable; vm_compute; split;
      discriminate | lia | cbn; tauto | cbn; tauto | exact H]. }
  discriminate E.
Defined.

(** ** More on the resolver *)

Lemma land_u32_mask (x : Z) : 0 <= x -> 0 <= Z.land x 0xFFFFF000 < 2 ^ 32.
Proof.
  intros Hx. split; [apply Z.land_nonneg; now left|].
  destruct (Z.eq_dec (Z.land x 0xFFFFF000) 0) as [->|Hne]; [reflexivity|].
  apply Z.log2_lt_pow2.
  - pose proof (proj2 (Z.land_nonneg x 0xFFFFF000) (or_introl Hx)). lia.
  - pose proof (Z.log2_land x 0xFFFFF000 Hx ltac:(lia)) as Hl.
    change (Z.log2 0xFFFFF000) with 31 in Hl. lia.
Qed.

(** X3: on a buffer of at least 8 bytes the resolved link base is a
    page-aligned 32-bit value: it lies in [0, 0xFFFFF000] and is a
    multiple of 0x1000. *)
Theorem link_base_page_aligned_u32 (data : bytes) (dict : option Z) :
  8 <= len data -> dict_ok dict ->
  exists lb,
    find_link_base data dict = Ok lb /\
    0 <= lb <= 0xFFFFF000 /\ lb mod 0x1000 = 0.
Proof.
  intros H8 Hd.
  destruct (find_link_base_total data dict H8 Hd) as (lb & Hlb & Hshape).
  exists lb. split; [exact Hlb|].
  destruct Hshape as [(b & Hb & ->)|(w & Hw & ->)].
  - unfold FLASH_BASE. cbn in Hb.
    repeat (destruct Hb as [<-|Hb]; [split; [lia | reflexivity]|]).
    contradiction.
  - pose proof (u32le_range _ _ _ Hw) as Hr.
    assert (H0 : 0 <= Z.land w 0xFFFFFFFE) by (apply Z.land_nonneg; lia).
    pose proof (land_u32_mask _ H0) as Hm.
    pose proof (land_page_aligned (Z.land w 0xFFFFFFFE)) as Ha.
    split; [|exact Ha].
    change (2 ^ 32) with 4294967296 in Hm.
    pose proof (Z.div_mod (Z.land (Z.land w 0xFFFFFFFE) 0xFFFFF000) 0x1000).
    lia.
Qed.

Lemma link_base_page_aligned_u32_witness :
  exists lb, find_link_base low_reset None = Ok lb /\
             0 <= lb <= 0xFFFFF000 /\ lb mod 0x1000 = 0.
Proof.
  apply (link_base_page_aligned_u32 low_reset None);
    [vm_compute; discriminate | exact I].
Defined.

Lemma vt_scan_sound (data : bytes) (offs : list Z) (v : Z) :
  vt_scan data offs = Ok v -> v <> 0 ->
  In v offs /\ is_valid_vt data v = Ok true.
Proof.
  induction offs as [|p offs IH]; cbn [vt_scan].
  - intros H Hne. apply Ok_inj in H. congruence.
  - destruct (is_valid_vt data p) as [[|]|e] eqn:E; cbn [bind].
    + intros H _. apply Ok_inj in H. subst v. split; [now left | exact E].
    + intros H Hne. destruct (IH H Hne). split; [now right | assumption].
    + discriminate.
Qed.

(** X4: a non-zero vector-table file offset is sound: it is one of the
    non-zero enumerated offsets, a plausible table lies there entirely
    inside the buffer, and offset 0 holds none. *)
Theorem vt_file_offset_sound (data : bytes) (vt : Z) :
  vt_file_offset data = Ok vt -> vt <> 0 ->
  In vt (tl KNOWN_BL_OFFSETS) /\
  is_valid_vt data vt = Ok true /\
  is_valid_vt data 0 = Ok false /\
  vt + 8 <= len data.
Proof.
  unfold vt_file_offset. intros H Hne.
  destruct (is_valid_vt data 0) as [[|]|e] eqn:E0; cbn [bind negb] in H.
  - apply Ok_inj in H. congruence.
  - destruct (vt_scan_sound _ _ _ H Hne) as [Hin Hv].
    split; [exact Hin|]. split; [exact Hv|]. split; [reflexivity|].
    destruct (Z_lt_dec (len data) (vt + 8)) as [Hs|]; [|lia].
    rewrite is_valid_vt_short in Hv by exact Hs. discriminate.
  - discriminate.
Qed.

Lemma vt_file_offset_sound_witness :
  is_valid_vt (repeat x00 4096 ++ vt_header) 0x1000 = Ok true /\
  is_valid_vt (repeat x00 4096 ++ vt_header) 0 = Ok false.
Proof.
  destruct (vt_file_offset_sound (repeat x00 4096 ++ vt_header) 0x1000)
    as (_ & Hv & H0 & _); [vm_compute; reflexivity | discriminate |].
  split; assumption.
Defined.

(** X5: a dictionary offset only adds matches: with one, the resolver
    returns either the link base of a candidate whose needle occurs in the
    buffer, or exactly what it returns without a dictionary. *)
Theorem dictionary_only_adds_matches (data : bytes) (d lb : Z) :
  addressable d ->
  find_link_base data (Some d) = Ok lb ->
  (exists vt b, vt_file_offset data = Ok vt /\ In b KNOWN_BL_OFFSETS /\
                lb = FLASH_BASE + b /\ occurs (needle b d vt) data) \/
  find_link_base data None = Ok lb.
Proof.
  intros Hd H. unfold find_link_base in *.
  destruct (vt_file_offset_total data) as (vt & Hvt & Hin).
  pose proof (known_bl_range vt Hin) as Hv.
  rewrite Hvt in *. cbn [bind] in *.
  destruct (xref_scan data d vt KNOWN_BL_OFFSETS) as [[lb'|]|e] eqn:E;
    cbn [bind] in H.
  - left. apply Ok_inj in H. subst lb'.
    destruct (xref_scan_some_inv _ _ _ _ _ Hd Hv known_bl_Forall_range E)
      as (pre & b & post & Hsplit & -> & Ho & _).
    exists vt, b. split; [reflexivity|]. split; [|split; [reflexivity|exact Ho]].
    rewrite Hsplit. apply in_elt.
  - right. exact H.
  - discriminate.
Qed.

Lemma dictionary_only_adds_matches_witness :
  (exists vt b, vt_file_offset sample_image = Ok vt /\
                In b KNOWN_BL_OFFSETS /\ 0x08003000 = FLASH_BASE + b /\
                occurs (needle b 12 vt) sample_image) \/
  find_link_base sample_image None = Ok 0x08003000.
Proof.
  apply (dictionary_only_adds_matches sample_image 12 0x08003000);
    [unfold addressable; vm_compute; split; discriminate
    | vm_compute; reflexivity].
Defined.

(** X6: without a dictionary offset the resolver raises [struct.error] on
    every buffer shorter than 8 bytes: no table fits, and the last resort
    reads the reset vector at offset 4. *)
Theorem find_link_base_short_buffer (data : bytes) :
  len data < 8 -> find_link_base data None = Raise StructError.
Proof.
  intros H. unfold find_link_base, vt_file_offset.
  rewrite is_valid_vt_short by lia. cbn [bind negb tl KNOWN_BL_OFFSETS vt_scan].
  rewrite !is_valid_vt_short by lia. cbn [bind].
  cbn [Z.gtb Z.compare]. rewrite u32le_short by lia. reflexivity.
Qed.

Lemma find_link_base_short_buffer_witness :
  find_link_base short_file None = Raise StructError.
Proof.
  apply find_link_base_short_buffer. vm_compute. reflexivity.
Defined.

(** ** The locator's result and its consumers *)

Lemma analyze_vector_table_total (data : bytes) :
  8 <= len data -> exists vt, analyze_vector_table data = Ok vt.
Proof.
  intros H8. unfold analyze_vector_table.
  rewrite (u32le_ok data 0), (u32le_ok data 4) by lia. cbn [bind]. eauto.
Qed.

Lemma analyze_vector_table_short (data : bytes) :
  len data < 8 -> analyze_vector_table data = Raise StructError.
Proof.
  intros H. unfold analyze_vector_table.
  destruct (Z_lt_dec (len data) 4) as [H4|H4].
  - rewrite u32le_short by lia. reflexivity.
  - rewrite (u32le_ok data 0) by lia. cbn [bind].
    rewrite u32le_short by lia. reflexivity.
Qed.

Lemma no_signature_false (data : bytes) (i : Z) :
  no_signature data i = Ok false ->
  getitem data i = Ok 0x78 /\
  exists b1, getitem data (i + 1) = Ok b1 /\ In b1 ZLIB_SECOND_BYTES.
Proof.
  unfold no_signature.
  destruct (getitem data i) as [b0|e]; cbn [bind]; [|discriminate].
  destruct (b0 =? 0x78) eqn:E0; cbn [negb]; [|discriminate].
  apply Z.eqb_eq in E0. subst b0.
  destruct (getitem data (i + 1)) as [b1|e]; cbn [bind]; [|discriminate].
  intros H. apply Ok_inj in H. split; [reflexivity|]. exists b1.
  split; [reflexivity|].
  destruct (in_tuple b1 ZLIB_SECOND_BYTES) eqn:E1; [|discriminate].
  unfold in_tuple in E1. apply existsb_exists in E1 as (x & Hx & Hxe).
  apply Z.eqb_eq in Hxe. now subst x.
Qed.

Lemma any_in_empty_dict (keys : list str) : any_in keys (JDict []) = Ok false.
Proof. induction keys as [|k keys IH]; [reflexivity|]. cbn. exact IH. Qed.

Section ConsumerProperties.

Context {lib : PyLib}.

(** An accepted object is a non-empty mapping that passed the marker
    test. *)
Lemma accepted_shape (data : bytes) (i : Z) (obj : json) :
  accepted data i = Some obj ->
  no_signature data i = Ok false /\
  exists d cfg, obj = JDict d /\ d <> [] /\
    py_get obj (str_lit "config") obj = Ok cfg /\
    any_in MARKER_KEYS cfg = Ok true.
Proof.
  unfold accepted.
  destruct (no_signature data i) as [[|]|e]; try discriminate.
  unfold try_candidate.
  destruct (zlib_decompress (slice_from data i)) as [raw|e];
    cbn [bind]; [|discriminate].
  destruct (decode_utf8 raw) as [text|e]; cbn [bind]; [|discriminate].
  destruct (json_loads (str_strip text)) as [o|e]; cbn [bind]; [|discriminate].
  destruct (py_get o (str_lit "config") o) as [cfg|e] eqn:Eg;
    cbn [bind]; [|discriminate].
  destruct (any_in MARKER_KEYS cfg) as [[|]|e] eqn:Ea;
    cbn [bind]; try discriminate.
  intros H. apply Some_inj in H. subst o. split; [reflexivity|].
  destruct obj as [| | | | |l|d]; try discriminate.
  exists d, cfg. split; [reflexivity|]. split; [|split; assumption].
  intros ->. cbn in Eg. apply Ok_inj in Eg. subst cfg.
  rewrite any_in_empty_dict in Ea. discriminate.
Qed.

Lemma extract_dictionary_some (data : bytes) (obj : json) (i : Z) :
  extract_dictionary data = Ok (Some (obj, i)) ->
  4 <= i < len data - 10 /\ accepted data i = Some obj.
Proof.
  rewrite extract_dictionary_spec. intros H. apply Ok_inj in H.
  apply (first_accepted_range data _ 4 (len data - 10) eq_refl) in H.
  tauto.
Qed.

Lemma located_object (data : bytes) (obj : json) (i : Z) :
  extract_dictionary data = Ok (Some (obj, i)) ->
  exists d cfg, obj = JDict d /\ d <> [] /\
    py_get obj (str_lit "config") obj = Ok cfg /\
    any_in MARKER_KEYS cfg = Ok true.
Proof.
  intros H. destruct (extract_dictionary_some _ _ _ H) as [_ Ha].
  now destruct (accepted_shape _ _ _ Ha) as [_ Hshape].
Qed.

(** X7: whatever the locator returns is a non-empty JSON object found at
    an offset in [range(4, len - 10)] where the two signature bytes lie,
    and the marker test holds for its [config] (or for itself). *)
Theorem located_dictionary_shape (data : bytes) (obj : json) (i : Z) :
  extract_dictionary data = Ok (Some (obj, i)) ->
  4 <= i < len data - 10 /\
  getitem data i = Ok 0x78 /\
  (exists b1, getitem data (i + 1) = Ok b1 /\ In b1 ZLIB_SECOND_BYTES) /\
  exists d cfg, obj = JDict d /\ d <> [] /\
    py_get obj (str_lit "config") obj = Ok cfg /\
    any_in MARKER_KEYS cfg = Ok true.
Proof.
  intros H. destruct (extract_dictionary_some _ _ _ H) as [Hi Ha].
  destruct (accepted_shape _ _ _ Ha) as [Hs Hshape].
  destruct (no_signature_false _ _ Hs) as [H0 H1].
  tauto.
Qed.

(** X8: a buffer of at most 14 bytes never yields a dictionary: the scan
    range is empty. *)
Theorem no_dictionary_in_small_buffer (data : bytes) :
  len data <= 14 -> extract_dictionary data = Ok None.
Proof.
  intros H. unfold extract_dictionary. rewrite range_nil by lia. reflexivity.
Qed.

End ConsumerProperties.

Section SummaryProperties.

Context {lib : PyLib} {out : PyOut}.

(** With a mapping for [cfg] no lookup of the block raises. *)
Lemma print_summary_mapping (w : stdout) (d c : list (str * json)) :
  d <> [] ->
  py_get (JDict d) (str_lit "config") (JDict d) = Ok (JDict c) ->
  (forall e, snd (print_summary w (JDict d)) <> Some (Lookup e)) /\
  ((forall w' l v, snd (print_line w' l v) = None) ->
   snd (print_summary w (JDict d)) = None) /\
  (forall w' e,
     print_line w (str_lit "    MCU:        ")
       match dict_lookup c (str_lit "MCU") with
       | Some v => v
       | None => JNull
       end = (w', Some e) ->
     print_summary w (JDict d) = (w', Some (Printing e))).
Proof.
  intros Hd Hg.
  assert (Ht : json_truthy (JDict d) = true)
    by (destruct d; [congruence|reflexivity]).
  assert (Hor : exists p,
    (reserve <- cfg_get (JDict c) "RESERVE_PINS_serial" ;;
     py_or reserve (cfg_get (JDict c) "BUS_PINS_serial")) = Ok p).
  { unfold cfg_get, py_get, py_or. cbn [bind].
    match goal with |- context [if ?b then _ else _] => destruct b end;
      eauto. }
  destruct Hor as [p Hp].
  unfold print_summary. rewrite Ht, Hg, Hp.
  unfold cfg_get, py_get, print_field.
  split; [|split].
  - intros e.
    repeat match goal with
           | |- context [print_line ?a ?b ?c] =>
               let E := fresh "E" in
               destruct (print_line a b c) as [? [?|]] eqn:E;
               cbn [snd]; try discriminate
           end.
  - intros Hq.
    repeat match goal with
           | |- context [print_line ?a ?b ?c] =>
               let E := fresh "E" in
               pose proof (Hq a b c) as E;
               destruct (print_line a b c) as [? [?|]];
               cbn [snd] in E |- *; try discriminate E
           end.
    reflexivity.
  - intros w' e E. rewrite E. reflexivity.
Qed.

(** X9: for a located dictionary, when the [config] value (or the object
    itself when it has none) is not a mapping, the summary block of [main]
    raises [AttributeError] at its first [cfg.get], before it prints
    anything: a string or list can pass the marker test.  When it is a
    mapping no lookup raises: the block raises only what [print] raises,
    it raises what its first [print] raises, and it completes when no
    [print] raises. *)
Theorem print_summary_needs_mapping (data : bytes) (obj : json) (i : Z)
  (w : stdout) :
  extract_dictionary data = Ok (Some (obj, i)) ->
  exists cfg,
    py_get obj (str_lit "config") obj = Ok cfg /\
    ((forall c, cfg <> JDict c) ->
     print_summary w obj = (w, Some (Lookup AttributeError))) /\
    (forall c, cfg = JDict c ->
       (forall e, snd (print_summary w obj) <> Some (Lookup e)) /\
       ((forall w' l v, snd (print_line w' l v) = None) ->
        snd (print_summary w obj) = None) /\
       (forall w' e,
          print_line w (str_lit "    MCU:        ")
            match dict_lookup c (str_lit "MCU") with
            | Some v => v
            | None => JNull
            end = (w', Some e) ->
          print_summary w obj = (w', Some (Printing e)))).
Proof.
  intros H. destruct (located_object _ _ _ H)
    as (d & cfg & -> & Hd & Hg & _).
  exists cfg. split; [exact Hg|]. split.
  - intros Hn.
    assert (Ht : json_truthy (JDict d) = true)
      by (destruct d; [congruence|reflexivity]).
    unfold print_summary. rewrite Ht, Hg.
    destruct cfg; try reflexivity. now destruct (Hn d0).
  - intros c ->. now apply print_summary_mapping.
Qed.

End SummaryProperties.

Section AnalysisProperties.

Context {lib : PyLib}.

(** X10: on a file of at most 0xF7FF8000 bytes, the analysis steps of
    [main] all return when the file has at least 8 bytes, and raise
    [struct.error] otherwise. *)
Theorem analyze_returns_iff_8_bytes (data : bytes) :
  len data <= 0xF7FF8000 ->
  (8 <= len data -> exists a, analyze data = Ok a) /\
  (len data < 8 -> analyze data = Raise StructError).
Proof.
  intros Hmax. split.
  - intros H8. unfold analyze.
    destruct (analyze_vector_table_total data H8) as (vt & ->). cbn [bind].
    rewrite extract_dictionary_spec. cbn [bind].
    destruct (first_accepted data (range 4 (len data - 10)))
      as [[obj i]|] eqn:E.
    + apply (first_accepted_range data _ 4 (len data - 10) eq_refl) in E.
      destruct E as (Hi & _ & _). cbn [option_map snd].
      destruct (find_link_base_total data (Some i) H8) as (lb & -> & _);
        [unfold dict_ok, addressable, FLASH_BASE; lia|].
      cbn [bind]. eauto.
    + cbn [option_map].
      destruct (find_link_base_total data None H8 I) as (lb & -> & _).
      cbn [bind]. eauto.
  - intros Hs. unfold analyze.
    rewrite (analyze_vector_table_short data Hs). reflexivity.
Qed.

(** What the analysis binds: the dictionary object is truthy exactly when
    an offset came with it, and the table record agrees with the
    resolver's validator at offset 0. *)
Lemma analyze_fields (data : bytes) (a : analysis) :
  analyze data = Ok a ->
  analyze_vector_table data = Ok (an_vt a) /\
  match an_dict_offset a with
  | Some i =>
      extract_dictionary data = Ok (Some (an_dict_obj a, i)) /\
      json_truthy (an_dict_obj a) = true
  | None => extract_dictionary data = Ok None /\ an_dict_obj a = JNull
  end /\
  find_link_base data (an_dict_offset a) = Ok (an_link_base a) /\
  an_bl_offset a = bootloader_offset (an_link_base a).
Proof.
  unfold analyze.
  destruct (analyze_vector_table data) as [vt|e]; cbn [bind]; [|discriminate].
  destruct (extract_dictionary data) as [located|e] eqn:El;
    cbn [bind]; [|discriminate].
  destruct (find_link_base data (option_map snd located)) as [lb|e] eqn:Ef;
    cbn [bind]; [|discriminate].
  intros H. apply Ok_inj in H. subst a. cbn.
  split; [reflexivity|]. split; [|split; [exact Ef | reflexivity]].
  destruct located as [[obj i]|]; cbn; [|split; reflexivity].
  split; [reflexivity|].
  destruct (located_object _ _ _ El) as (d & _ & -> & Hd & _).
  destruct d; [congruence | reflexivity].
Qed.

End AnalysisProperties.

(** ** Verdict *)

Lemma verdict_class_cases (vt : vector_table) (dict_obj : json)
  (bl_offset : option Z) :
  (fst (fst (verdict vt dict_obj bl_offset)) = str_lit "error" <->
     vt_plausible vt = false) /\
  (fst (fst (verdict vt dict_obj bl_offset)) = str_lit "ok" <->
     vt_plausible vt = true /\ json_truthy dict_obj = true) /\
  (fst (fst (verdict vt dict_obj bl_offset)) = str_lit "warn" <->
     vt_plausible vt = true /\ json_truthy dict_obj = false).
Proof.
  unfold verdict, vt_plausible.
  destruct (negb (msp_ok vt) || negb (flash_ok vt) || negb (truthy (thumb vt)));
    cbn [negb fst snd].
  - split; [split; intros H; reflexivity|].
    split; (split; intros H; [vm_compute in H|destruct H]; discriminate).
  - destruct (json_truthy dict_obj); cbn [andb].
    + destruct (offset_is bl_offset 0x3000); cbn [fst snd].
      * split; [split; intros H; [vm_compute in H|]; discriminate|].
        split; [split; intros H; [tauto | reflexivity]|].
        split; intros H; [vm_compute in H|destruct H]; discriminate.
      * split; [split; intros H; [vm_compute in H|]; discriminate|].
        split; [split; intros H; [tauto | reflexivity]|].
        split; intros H; [vm_compute in H|destruct H]; discriminate.
    + cbn [fst snd].
      split; [split; intros H; [vm_compute in H|]; discriminate|].
      split; [split; intros H; [vm_compute in H|destruct H]; discriminate|].
      split; intros H; [tauto | reflexivity].
Qed.

(** X11: the verdict class is "error" exactly when the table at offset 0
    fails the three-way test, "ok" exactly when it passes and the
    dictionary object is truthy, "warn" exactly when it passes and the
    object is falsy; the Creality K1 title is shown exactly in the "ok"
    case with bootloader offset 0x3000. *)
Theorem verdict_classes (vt : vector_table) (dict_obj : json)
  (bl_offset : option Z) :
  (fst (fst (verdict vt dict_obj bl_offset)) = str_lit "error" <->
     vt_plausible vt = false) /\
  (fst (fst (verdict vt dict_obj bl_offset)) = str_lit "ok" <->
     vt_plausible vt = true /\ json_truthy dict_obj = true) /\
  (fst (fst (verdict vt dict_obj bl_offset)) = str_lit "warn" <->
     vt_plausible vt = true /\ json_truthy dict_obj = false) /\
  (snd (verdict vt dict_obj bl_offset)
   = str_lit "Valid Klipper firmware " ++ [8212]
     ++ str_lit " Creality K1/K1 SE/K1 Max (GD32F303)" <->
     vt_plausible vt = true /\ json_truthy dict_obj = true /\
     bl_offset = Some 0x3000).
Proof.
  destruct (verdict_class_cases vt dict_obj bl_offset) as (He & Ho & Hw).
  split; [exact He|]. split; [exact Ho|]. split; [exact Hw|].
  unfold verdict, vt_plausible.
  assert (Hoff : offset_is bl_offset 0x3000 = true <-> bl_offset = Some 0x3000).
  { destruct bl_offset as [b|]; cbn; [|split; discriminate].
    rewrite Z.eqb_eq.
    split; [now intros -> | intros H; now apply Some_inj in H]. }
  destruct (negb (msp_ok vt) || negb (flash_ok vt) || negb (truthy (thumb vt)));
    cbn [negb fst snd].
  - split; [intros H; vm_compute in H; discriminate|].
    intros (H & _). discriminate.
  - destruct (json_truthy dict_obj); cbn [andb].
    + destruct (offset_is bl_offset 0x3000) eqn:E; cbn [fst snd].
      * split; [intros _|intros _; reflexivity].
        split; [reflexivity|]. split; [reflexivity|]. now apply Hoff.
      * split.
        -- intros H. exfalso.
           apply app_inv_head in H.
           change ([8212] ++ ?x) with (8212 :: x) in H.
           remember (match bl_offset with
                     | Some b => str_lit "0x" ++ format_X 4 b
                     | None => str_lit "unknown"
                     end ++ str_lit " (" ++ kib_text bl_offset
                     ++ str_lit " KiB)") as rest eqn:Et.
           clear Et. vm_compute in H. congruence.
        -- intros (_ & _ & H). apply Hoff in H. congruence.
    + cbn [fst snd].
      split; [intros H; vm_compute in H; discriminate|].
      intros (_ & H & _). discriminate.
Qed.

Lemma is_valid_vt_0_plausible (data : bytes) (vt : vector_table) :
  analyze_vector_table data = Ok vt ->
  is_valid_vt data 0 = Ok (vt_plausible vt).
Proof.
  intros H.
  destruct (Z_lt_dec (len data) 8) as [Hs|Hl];
    [rewrite analyze_vector_table_short in H by exact Hs; discriminate|].
  destruct (is_valid_vt_words data 0) as (sp & rv & Esp & Erv & E); [lia..|].
  change (0 + 4) with 4 in Erv. unfold analyze_vector_table in H.
  rewrite Esp, Erv in H. cbn [bind] in H. apply Ok_inj in H. subst vt.
  rewrite E. unfold vt_plausible. cbn [msp_ok flash_ok thumb]. f_equal.
  repeat match goal with |- context [?a <=? ?b] => destruct (a <=? b) end;
    repeat match goal with |- context [?a <? ?b] => destruct (a <? b) end;
    destruct (truthy _); reflexivity.
Qed.

Section VerdictOfAnalysis.

Context {lib : PyLib}.

(** X12: for an analysed file the verdict class is "error" exactly when
    the validator rejects offset 0, "ok" exactly when it accepts offset 0
    and the locator found a dictionary, "warn" exactly when it accepts
    offset 0 and the locator found none. *)
Theorem verdict_of_analysis (data : bytes) (a : analysis) :
  analyze data = Ok a ->
  (fst (fst (verdict (an_vt a) (an_dict_obj a) (an_bl_offset a)))
   = str_lit "error" <-> is_valid_vt data 0 = Ok false) /\
  (fst (fst (verdict (an_vt a) (an_dict_obj a) (an_bl_offset a)))
   = str_lit "ok" <->
     is_valid_vt data 0 = Ok true /\
     exists obj i, extract_dictionary data = Ok (Some (obj, i))) /\
  (fst (fst (verdict (an_vt a) (an_dict_obj a) (an_bl_offset a)))
   = str_lit "warn" <->
     is_valid_vt data 0 = Ok true /\ extract_dictionary data = Ok None).
Proof.
  intros H. destruct (analyze_fields data a H) as (Hvt & Hd & _).
  pose proof (is_valid_vt_0_plausible data _ Hvt) as Hv.
  destruct (verdict_class_cases (an_vt a) (an_dict_obj a) (an_bl_offset a))
    as (He & Ho & Hw).
  rewrite He, Ho, Hw, Hv. clear He Ho Hw.
  assert (Ht : json_truthy (an_dict_obj a) = true <->
               exists obj i, extract_dictionary data = Ok (Some (obj, i))).
  { destruct (an_dict_offset a) as [i|].
    - destruct Hd as [Hx Hj]. split; [eauto | intros _; exact Hj].
    - destruct Hd as [Hx Hn]. rewrite Hn, Hx. cbn.
      split; [discriminate | intros (o & i & Hc); discriminate]. }
  assert (Hf : json_truthy (an_dict_obj a) = false <->
               extract_dictionary data = Ok None).
  { destruct (an_dict_offset a) as [i|].
    - destruct Hd as [Hx Hj]. rewrite Hx, Hj. split; discriminate.
    - destruct Hd as [Hx Hn]. rewrite Hn, Hx. cbn. tauto. }
  rewrite Ht, Hf.
  destruct (vt_plausible (an_vt a)).
  - split; [split; intros Hc; [discriminate | now apply Ok_inj in Hc]|].
    split; tauto.
  - split; [tauto|].
    split; (split; [intros [Hc _]; discriminate
                   | intros [Hc _]; now apply Ok_inj in Hc]).
Qed.

End VerdictOfAnalysis.

(** ** Offset table and classifier *)

(** X13: the size the classifier returns is always [offset // 1024], for
    the enumerated offsets as for the others: the sizes in the table agree
    with the computed ones. *)
Theorem offset_label_size (off : Z) : fst (offset_label off) = off / 1024.
Proof.
  destruct (in_dec Z.eq_dec off KNOWN_BL_OFFSETS) as [Hin|Hn].
  - cbn in Hin.
    repeat (destruct Hin as [<-|Hin]; [reflexivity|]). contradiction.
  - unfold offset_label.
    rewrite (offset_label_scan_other KNOWN_OFFSETS off Hn). reflexivity.
Qed.

(** X14: in the offset table of the report, the row of an entry is marked
    as the match exactly when the classifier returns that entry's size and
    label, and at most one row is marked. *)
Theorem offset_row_match (off o k : Z) (l : string) :
  In (o, k, l) KNOWN_OFFSETS ->
  (offset_is (Some off) o = true <-> offset_label off = (k, l)) /\
  (List.length (filter (fun b => b) (offset_rows_match (Some off))) <= 1)%nat.
Proof.
  intros Hin. split.
  - cbn [offset_is]. rewrite Z.eqb_eq. split.
    + intros ->. cbn in Hin.
      repeat (destruct Hin as [Hin|Hin];
              [inversion Hin; subst; reflexivity|]).
      contradiction.
    + intros Hl.
      destruct (in_dec Z.eq_dec off KNOWN_BL_OFFSETS) as [Hoff|Hn].
      * cbn in Hoff, Hin.
        repeat (destruct Hoff as [<-|Hoff];
                [repeat (destruct Hin as [Hin|Hin];
                         [inversion Hin; subst; first [reflexivity | discriminate Hl]|]);
                 contradiction|]).
        contradiction.
      * unfold offset_label in Hl.
        rewrite (offset_label_scan_other KNOWN_OFFSETS off Hn) in Hl.
        cbn in Hin.
        repeat (destruct Hin as [Hin|Hin];
                [inversion Hin; subst; inversion Hl|]).
        contradiction.
  - unfold offset_rows_match. cbn [map KNOWN_OFFSETS fst offset_is].
    destruct (in_dec Z.eq_dec off KNOWN_BL_OFFSETS) as [Hoff|Hn].
    + cbn in Hoff.
      repeat (destruct Hoff as [<-|Hoff]; [cbn; lia|]). contradiction.
    + cbn in Hn.
      repeat match goal with
             | |- context [?a =? ?b] =>
                 rewrite (proj2 (Z.eqb_neq a b)) by (intros ->; tauto)
             end.
      cbn. lia.
Qed.

Lemma offset_row_match_witness :
  offset_is (Some 0x3000) 0x3000 = true /\
  offset_is (Some 0x3000) 0x2000 = false.
Proof.
  split.
  - apply (offset_row_match 0x3000 0x3000 12
             "Creality K1 / K1 SE / K1 Max (GD32F303)"); [cbn; tauto|].
    reflexivity.
  - destruct (offset_is (Some 0x3000) 0x2000) eqn:E; [|reflexivity].
    apply (offset_row_match 0x3000 0x2000 8 "HID / stm32duino bootloader")
      in E; [discriminate E | cbn; tauto].
Defined.

(** ** Crystal *)

Lemma crystal_get_some (m : list (Z * (str * str))) (k : Z) (v : str * str) :
  crystal_get m k = Some v -> In (k, v) m.
Proof.
  induction m as [|[k' v'] m IH]; cbn; [discriminate|].
  destruct (k' =? k) eqn:E.
  - intros H. apply Some_inj in H. apply Z.eqb_eq in E. subst. now left.
  - intros H. right. now apply IH.
Qed.

Lemma crystal_get_none (m : list (Z * (str * str))) (k : Z) :
  crystal_get m k = None -> ~ In k (map fst m).
Proof.
  induction m as [|[k' v'] m IH]; cbn; [tauto|].
  destruct (k' =? k) eqn:E; [discriminate|].
  apply Z.eqb_neq in E. intros H [Hk|Hk]; [congruence | now apply IH].
Qed.

Section CrystalProperties.

Context {conv : PyConv}.

(** X15: for an integer clock frequency [derive_crystal] always returns a
    note; it names a crystal exactly when the frequency is one of the seven
    keys of [CRYSTAL_MAP], and then returns that entry; otherwise the note
    is the frequency with thousands separators followed by
    " Hz — crystal unknown". *)
Theorem derive_crystal_int (n : Z) :
  exists crystal note,
    derive_crystal (JInt n) = Returns (crystal, Some note) /\
    (crystal <> None <-> In n (map fst CRYSTAL_MAP)) /\
    (forall c, crystal = Some c -> In (n, (c, note)) CRYSTAL_MAP) /\
    (crystal = None -> note = format_comma n ++ CRYSTAL_UNKNOWN).
Proof.
  unfold derive_crystal, py_int. cbn [obind].
  destruct (crystal_get CRYSTAL_MAP n) as [[c note]|] eqn:E.
  - exists (Some c), note. split; [reflexivity|].
    apply crystal_get_some in E. split; [|split].
    + split; [intros _|discriminate].
      apply (in_map fst) in E. exact E.
    + intros c' H. apply Some_inj in H. now subst c'.
    + discriminate.
  - eexists None, _. split; [reflexivity|].
    apply crystal_get_none in E. split; [|split].
    + split; [congruence | tauto].
    + discriminate.
    + reflexivity.
Qed.

Lemma render_fields_clock_list (dict_obj : json) (c : list (str * json))
  (l : list json) :
  json_truthy dict_obj = true ->
  py_get dict_obj (str_lit "config") dict_obj = Ok (JDict c) ->
  dict_lookup c (str_lit "CLOCK_FREQ") = Some (JList l) ->
  render_fields dict_obj = Throws (Analysis TypeError).
Proof.
  intros Ht Hg Hl. unfold render_fields. rewrite Ht, Hg. cbn [lift obind].
  destruct dict_obj; try discriminate.
  unfold cfg_get. cbn [py_get lift obind]. rewrite Hl.
  unfold py_or.
  match goal with |- context [if ?b then _ else _] => destruct b end;
    reflexivity.
Qed.

(** X16: the first lines of [render_html] return exactly when the value
    bound to [cfg] is a mapping and [derive_crystal] accepts its
    CLOCK_FREQ; the crystal they bind is then [derive_crystal]'s.  A
    [config] whose CLOCK_FREQ is a JSON array makes them raise
    [TypeError]. *)
Theorem render_fields_returns_iff (dict_obj : json) :
  ((exists f, render_fields dict_obj = Returns f) <->
   exists c,
     (if json_truthy dict_obj
      then py_get dict_obj (str_lit "config") dict_obj
      else Ok (JDict [])) = Ok (JDict c) /\
     exists r, derive_crystal
                 (match dict_lookup c (str_lit "CLOCK_FREQ") with
                  | Some v => v
                  | None => JNull
                  end) = Returns r) /\
  (forall f, render_fields dict_obj = Returns f ->
     derive_crystal (rf_clock_freq f)
     = Returns (rf_crystal f, rf_crystal_note f)) /\
  (forall c d l,
     render_fields
       (JDict ((str_lit "config",
                JDict ((str_lit "CLOCK_FREQ", JList l) :: c)) :: d))
     = Throws (Analysis TypeError)).
Proof.
  split; [|split].
  - unfold render_fields.
    destruct (if json_truthy dict_obj
              then py_get dict_obj (str_lit "config") dict_obj
              else Ok (JDict [])) as [cfg|e] eqn:Ec; cbn [lift obind].
    2:{ split; [intros [f Hf]; discriminate | intros (c & Hc & _); discriminate]. }
    destruct cfg as [| | | | | |c];
      try (split; [intros [f Hf]; discriminate
                  | intros (c & Hc & _); discriminate]).
    unfold cfg_get at 1 2 3 4 5 6. cbn [py_get lift obind].
    assert (Hor : exists p,
      py_or match dict_lookup c (str_lit "RESERVE_PINS_serial") with
            | Some v => v | None => JNull end
            (Ok match dict_lookup c (str_lit "BUS_PINS_serial") with
                | Some v => v | None => JNull end) = Ok p).
    { unfold py_or.
      match goal with |- context [if ?b then _ else _] => destruct b end;
        eauto. }
    destruct Hor as [p ->]. cbn [lift obind].
    assert (Hv : forall key, exists v,
      (if json_truthy dict_obj then cfg_get dict_obj key else Ok JNull) = Ok v).
    { intros key. destruct (json_truthy dict_obj); [|eauto].
      destruct dict_obj; try discriminate. unfold cfg_get. cbn. eauto. }
    destruct (Hv "version"%string) as [v1 ->].
    destruct (Hv "build_versions"%string) as [v2 ->]. cbn [lift obind].
    destruct (derive_crystal _) as [r|e] eqn:Ed; cbn [obind].
    + split; [intros _|eauto]. exists c. split; [reflexivity|eauto].
    + split; [intros [f Hf]; discriminate|].
      intros (c' & Hc & r & Hr). apply Ok_inj in Hc.
      assert (c' = c) by congruence. subst c'. congruence.
  - intros f. unfold render_fields.
    repeat match goal with
           | |- obind (lift ?x) _ = _ -> _ =>
               destruct x as [?|?]; cbn [lift obind]; [|discriminate]
           end.
    destruct (derive_crystal _) as [r|e] eqn:Ed; cbn [obind]; [|discriminate].
    intros H. injection H as <-. cbn. rewrite Ed. now destruct r.
  - intros c d l.
    apply (render_fields_clock_list _
             ((str_lit "CLOCK_FREQ", JList l) :: c) l).
    + reflexivity.
    + cbn [py_get dict_lookup].
      change (str_eqb (str_lit "config") (str_lit "config")) with true.
      reflexivity.
    + cbn [dict_lookup].
      change (str_eqb (str_lit "CLOCK_FREQ") (str_lit "CLOCK_FREQ")) with true.
      reflexivity.
Qed.

End CrystalProperties.

(** ** The sample images through the pipeline *)

Lemma located_dictionary_shape_witness :
  getitem sample_image 12 = Ok 0x78 /\
  exists d, sample_dict = JDict d /\ d <> [].
Proof.
  destruct (@located_dictionary_shape Ref.lib sample_image sample_dict 12)
    as (_ & H0 & _ & d & cfg & Hd & Hne & _); [vm_compute; reflexivity|].
  split; [exact H0|]. exists d. split; assumption.
Defined.

Lemma no_dictionary_in_small_buffer_witness :
  @extract_dictionary Ref.lib vt_header = Ok None.
Proof.
  apply no_dictionary_in_small_buffer. vm_compute. discriminate.
Defined.

(** The image whose [config] is the string "MCU": the locator accepts it
    and the summary block raises before a line is printed. *)
Lemma print_summary_needs_mapping_witness :
  @extract_dictionary Ref.lib string_config_image
  = Ok (Some (JDict [(str_lit "config", JStr (str_lit "MCU"))], 12)) /\
  @print_summary recording_stdout []
    (JDict [(str_lit "config", JStr (str_lit "MCU"))])
  = ([], Some (Lookup AttributeError)).
Proof.
  assert (H : @extract_dictionary Ref.lib string_config_image
              = Ok (Some (JDict [(str_lit "config", JStr (str_lit "MCU"))], 12)))
    by (vm_compute; reflexivity).
  split; [exact H|].
  destruct (@print_summary_needs_mapping Ref.lib recording_stdout _ _ _ [] H)
    as (cfg & Hg & Hraise & _).
  apply Hraise. intros c Hc. subst cfg. vm_compute in Hg. discriminate.
Defined.

Lemma analyze_returns_iff_8_bytes_witness :
  (exists a, @analyze Ref.lib sample_image = Ok a) /\
  @analyze Ref.lib short_file = Raise StructError.
Proof.
  split.
  - apply (@analyze_returns_iff_8_bytes Ref.lib sample_image);
      vm_compute; discriminate.
  - apply (@analyze_returns_iff_8_bytes Ref.lib short_file);
      [vm_compute; discriminate | vm_compute; reflexivity].
Defined.

Lemma verdict_of_analysis_witness :
  exists a,
    @analyze Ref.lib sample_image = Ok a /\
    fst (fst (verdict (an_vt a) (an_dict_obj a) (an_bl_offset a)))
    = str_lit "ok".
Proof.
  eexists. split; [vm_compute; reflexivity|].
  apply (@verdict_of_analysis Ref.lib sample_image); [vm_compute; reflexivity|].
  split; [vm_compute; reflexivity|].
  exists sample_dict, 12. vm_compute. reflexivity.
Defined.

(** ** Hex dump *)

Lemma range_step_In (lo hi i : Z) :
  In i (range_step lo hi 4) <-> lo <= i < hi /\ (i - lo) mod 4 = 0.
Proof.
  unfold range_step. rewrite in_map_iff. split.
  - intros (k & <- & Hk). apply in_seq in Hk.
    assert (Hq : Z.of_nat k < (hi - lo + 4 - 1) / 4) by lia.
    replace (lo + 4 * Z.of_nat k - lo) with (Z.of_nat k * 4) by lia.
    rewrite Z.mod_mul by lia.
    split; [|reflexivity]. Z.div_mod_to_equations. lia.
  - intros [Hi Hm]. exists (Z.to_nat ((i - lo) / 4)). split.
    + Z.div_mod_to_equations. lia.
    + apply in_seq. Z.div_mod_to_equations. lia.
Qed.

Lemma slice_word (data : bytes) (i : Z) :
  0 <= i -> i + 4 <= len data ->
  slice data i (i + 4) = firstn 4 (skipn (Z.to_nat i) data).
Proof.
  intros H0 H4. unfold slice, clamp_index. cbv zeta.
  rewrite (proj2 (Z.ltb_ge i 0)), (proj2 (Z.ltb_ge (i + 4) 0)) by lia.
  rewrite !Z.min_r, !Z.max_r by lia.
  replace (Z.to_nat (i + 4 - i)) with 4%nat by lia. reflexivity.
Qed.

(** The row of a position whose four bytes fit. *)
Lemma hex_row_ok (data : bytes) (i : Z) :
  0 <= i -> i + 4 <= len data ->
  hex_row data i =
    Ok (FLASH_BASE + i,
        str_join (str_lit " ")
          (map (fun x => format_X 2 (byte_val x)) (slice data i (i + 4))),
        le_word (slice data i (i + 4)),
        if i =? 0 then NOTE_MSP else if i =? 4 then NOTE_RESET else []).
Proof.
  intros H0 H4. unfold hex_row. rewrite u32le_ok by lia. cbn [bind].
  rewrite slice_word by lia. reflexivity.
Qed.

Lemma hex_row_short (data : bytes) (i : Z) :
  0 <= i -> len data < i + 4 -> hex_row data i = Raise StructError.
Proof.
  intros H0 H4. unfold hex_row. rewrite u32le_short by lia. reflexivity.
Qed.

Lemma hex_rows_ok (data : bytes) (starts : list Z) :
  Forall (fun i => 0 <= i /\ i + 4 <= len data) starts ->
  exists rows,
    hex_rows data starts = Ok rows /\
    List.length rows = List.length starts /\
    forall row, In row rows ->
      exists i, In i starts /\ hex_row data i = Ok row.
Proof.
  intros H. induction starts as [|i starts IH].
  - exists []. split; [reflexivity|]. split; [reflexivity|]. intros row [].
  - destruct (Forall_inv H) as [H0 H4].
    destruct (IH (Forall_inv_tail H)) as (rows & Hr & Hl & Hin).
    cbn [hex_rows]. rewrite (hex_row_ok data i H0 H4), Hr. cbn [bind].
    eexists. split; [reflexivity|]. split; [cbn; lia|].
    intros row [<-|Hrow].
    + exists i. split; [now left | now apply hex_row_ok].
    + destruct (Hin row Hrow) as (j & Hj & Ej). exists j.
      split; [now right | exact Ej].
Qed.

Lemma hex_rows_raise (data : bytes) (starts : list Z) :
  Forall (fun i => 0 <= i) starts ->
  Exists (fun i => ~ i + 4 <= len data) starts ->
  hex_rows data starts = Raise StructError.
Proof.
  intros H0 He. induction starts as [|i starts IH]; [inversion He|].
  cbn [hex_rows]. pose proof (Forall_inv H0) as Hi. cbn beta in Hi.
  destruct (Z_le_dec (i + 4) (len data)) as [Hfit|Hshort].
  - rewrite hex_row_ok by assumption. cbn [bind].
    rewrite IH; [reflexivity | now apply Forall_inv_tail in H0 |].
    inversion He; subst; [contradiction | assumption].
  - rewrite hex_row_short by lia. reflexivity.
Qed.

Lemma hex_dump_starts_nonneg (data : bytes) (start count : Z) :
  0 <= start ->
  Forall (fun i => 0 <= i)
    (range_step start (Z.min (start + count) (len data)) 4).
Proof.
  intros H. rewrite Forall_forall. intros i Hi.
  apply range_step_In in Hi. lia.
Qed.

Lemma hex_dump_raise_cases (data : bytes) (start count : Z) :
  0 <= start ->
  (hex_dump data start count = Raise StructError <->
   exists i, In i (range_step start (Z.min (start + count) (len data)) 4) /\
             len data < i + 4) /\
  ((forall i, In i (range_step start (Z.min (start + count) (len data)) 4) ->
              i + 4 <= len data) ->
   exists rows,
     hex_dump data start count = Ok rows /\
     List.length rows
     = List.length (range_step start (Z.min (start + count) (len data)) 4)).
Proof.
  intros H0. pose proof (hex_dump_starts_nonneg data start count H0) as Hnn.
  unfold hex_dump.
  set (starts := range_step start (Z.min (start + count) (len data)) 4) in *.
  assert (Hok : (forall i, In i starts -> i + 4 <= len data) ->
                exists rows, hex_rows data starts = Ok rows /\
                             List.length rows = List.length starts).
  { intros Hfit. destruct (hex_rows_ok data starts) as (rows & Hr & Hl & _).
    - rewrite Forall_forall in *. intros i Hi. split; [now apply Hnn | now apply Hfit].
    - eauto. }
  split; [|exact Hok]. split.
  - intros Hraise.
    destruct (Forall_Exists_dec (fun i => i + 4 <= len data)
                (fun i => Z_le_dec (i + 4) (len data)) starts) as [Hall|Hex].
    + rewrite Forall_forall in Hall. destruct (Hok Hall) as (rows & Hr & _).
      congruence.
    + apply Exists_exists in Hex as (i & Hi & Hs). exists i. split; [exact Hi|lia].
  - intros (i & Hi & Hs). apply hex_rows_raise; [exact Hnn|].
    apply Exists_exists. exists i. split; [exact Hi|lia].
Qed.

(** X17: from a non-negative start, [hex_dump] raises [struct.error]
    exactly when some row starts fewer than four bytes before the end of
    the buffer; otherwise it returns one row per start. *)
Theorem hex_dump_raises_iff (data : bytes) (start count : Z) :
  0 <= start ->
  (hex_dump data start count = Raise StructError <->
   exists i, In i (range_step start (Z.min (start + count) (len data)) 4) /\
             len data < i + 4) /\
  ((forall i, In i (range_step start (Z.min (start + count) (len data)) 4) ->
              i + 4 <= len data) ->
   exists rows,
     hex_dump data start count = Ok rows /\
     List.length rows
     = List.length (range_step start (Z.min (start + count) (len data)) 4)).
Proof.
  exact (hex_dump_raise_cases data start count).
Qed.

Lemma hex_dump_raises_iff_witness :
  hex_dump (vt_header ++ [x01; x02]) 0 64 = Raise StructError.
Proof.
  apply (hex_dump_raises_iff (vt_header ++ [x01; x02]) 0 64); [lia|].
  exists 8. split; [vm_compute; tauto | vm_compute; reflexivity].
Defined.

(** X18: with its default arguments, [hex_dump] raises [struct.error]
    exactly on the buffers shorter than 64 bytes whose length is not a
    multiple of 4. *)
Theorem hex_dump_default_raises_iff (data : bytes) :
  hex_dump data 0 64 = Raise StructError <->
  len data < 64 /\ len data mod 4 <> 0.
Proof.
  destruct (hex_dump_raise_cases data 0 64) as [Hiff _]; [lia|]. rewrite Hiff.
  change (0 + 64) with 64.
  pose proof (len_nonneg data) as Hl. split.
  - intros (i & Hi & Hs). apply range_step_In in Hi.
    destruct Hi as [Hi Hm]. rewrite Z.sub_0_r in Hm.
    Z.div_mod_to_equations. lia.
  - intros [H64 Hm]. exists (4 * (len data / 4)). split.
    + apply range_step_In. rewrite Z.sub_0_r, Z.mul_comm, Z.mod_mul by lia.
      split; [|reflexivity]. Z.div_mod_to_equations. lia.
    + Z.div_mod_to_equations. lia.
Qed.

Lemma hex2_unhex (b : byte) :
  exists h1 h2 x y,
    format_X 2 (byte_val b) = [h1; h2] /\
    unhex_digit h1 = Some x /\ unhex_digit h2 = Some y /\
    byte_of_Z (16 * x + y) = b.
Proof.
  destruct b; eexists _, _, _, _;
    (split; [vm_compute; reflexivity|]);
    (split; [reflexivity|]); split; reflexivity.
Qed.

Lemma str_join_cons2 (sep p q : str) (more : list str) :
  str_join sep (p :: q :: more) = p ++ sep ++ str_join sep (q :: more).
Proof. reflexivity. Qed.

(** Reading a row of hex pairs gives back the bytes it was made from. *)
Lemma unhex_row_join (bs : bytes) :
  unhex_row (str_join (str_lit " ")
               (map (fun x => format_X 2 (byte_val x)) bs)) = Some bs.
Proof.
  induction bs as [|b bs IH]; [reflexivity|].
  destruct (hex2_unhex b) as (h1 & h2 & x & y & Hf & Hx & Hy & Hb).
  destruct bs as [|b' bs].
  - cbn [map str_join]. rewrite Hf. cbn [unhex_row]. now rewrite Hx, Hy, Hb.
  - cbn [map] in *. rewrite Hf, str_join_cons2.
    change (str_lit " ") with [32] in *.
    cbn [app unhex_row]. rewrite Hx, Hy, IH, Hb. reflexivity.
Qed.

(** X19: every row that [hex_dump] returns from a non-negative start is
    consistent: its address is the flash base plus a position [i] of the
    buffer, a multiple of 4 past the start, whose four bytes fit; its hex
    text reads back as those four bytes; its word is their little-endian
    value; and the notes mark positions 0 and 4 only. *)
Theorem hex_dump_rows_consistent (data : bytes) (start count : Z)
  (rows : list (Z * str * Z * str)) (addr w : Z) (hex_str note : str) :
  0 <= start ->
  hex_dump data start count = Ok rows ->
  In (addr, hex_str, w, note) rows ->
  exists i,
    addr = FLASH_BASE + i /\
    start <= i /\ i < start + count /\ i + 4 <= len data /\
    (i - start) mod 4 = 0 /\
    unhex_row hex_str = Some (slice data i (i + 4)) /\
    le_word (slice data i (i + 4)) = w /\
    (note = NOTE_MSP <-> i = 0) /\
    (note = NOTE_RESET <-> i = 4).
Proof.
  intros H0 Hd Hin.
  pose proof (hex_dump_starts_nonneg data start count H0) as Hnn.
  destruct (hex_dump_raise_cases data start count H0) as [Hiff _].
  assert (Hfit : forall i,
            In i (range_step start (Z.min (start + count) (len data)) 4) ->
            i + 4 <= len data).
  { intros i Hi. destruct (Z_le_dec (i + 4) (len data)) as [|Hs]; [assumption|].
    assert (Hr : hex_dump data start count = Raise StructError).
    { apply Hiff. exists i. split; [exact Hi | lia]. }
    congruence. }
  unfold hex_dump in Hd.
  destruct (hex_rows_ok data
              (range_step start (Z.min (start + count) (len data)) 4))
    as (rows' & Hr & _ & Hrows).
  { rewrite Forall_forall in *. intros i Hi. split; [now apply Hnn | now apply Hfit]. }
  rewrite Hr in Hd. apply Ok_inj in Hd. subst rows'.
  destruct (Hrows _ Hin) as (i & Hi & Erow).
  pose proof (Hfit i Hi) as Hf. apply range_step_In in Hi.
  rewrite hex_row_ok in Erow by lia. apply Ok_inj in Erow.
  pose proof (f_equal (fun r => fst (fst (fst r))) Erow) as Ea.
  pose proof (f_equal (fun r => snd (fst (fst r))) Erow) as Eh.
  pose proof (f_equal (fun r => snd (fst r)) Erow) as Ew.
  pose proof (f_equal snd Erow) as En.
  cbn [fst snd] in Ea, Eh, Ew, En. clear Erow.
  subst addr hex_str w note.
  exists i. split; [reflexivity|].
  split; [lia|]. split; [lia|]. split; [exact Hf|]. split; [tauto|].
  split; [apply unhex_row_join|]. split; [reflexivity|].
  destruct (Z.eq_dec i 0) as [E0|Hne0].
  - rewrite (proj2 (Z.eqb_eq i 0) E0). split; [tauto|].
    split; [intros Hc; vm_compute in Hc; discriminate | lia].
  - rewrite (proj2 (Z.eqb_neq i 0) Hne0).
    destruct (Z.eq_dec i 4) as [E4|Hne4].
    + rewrite (proj2 (Z.eqb_eq i 4) E4).
      split; [split; [intros Hc; vm_compute in Hc; discriminate | lia]|tauto].
    + rewrite (proj2 (Z.eqb_neq i 4) Hne4).
      split; (split; [intros Hc; vm_compute in Hc; discriminate | lia]).
Qed.

Lemma hex_dump_rows_consistent_witness :
  exists i,
    0x08000004 = FLASH_BASE + i /\
    unhex_row (str_lit "01 31 00 08") = Some (slice vt_header i (i + 4)) /\
    le_word (slice vt_header i (i + 4)) = 0x08003101.
Proof.
  destruct (hex_dump_rows_consistent vt_header 0 64
              [(0x08000000, str_lit "00 10 00 20", 0x20001000, NOTE_MSP);
               (0x08000004, str_lit "01 31 00 08", 0x08003101, NOTE_RESET)]
              0x08000004 0x08003101 (str_lit "01 31 00 08") NOTE_RESET)
    as (i & Ha & _ & _ & _ & _ & Hu & Hw & _);
    [lia | vm_compute; reflexivity | right; left; reflexivity |].
  exists i. split; [exact Ha|]. split; assumption.
Defined.

(** ** Report path *)

Lemma str_eqb_eq (a b : str) : str_eqb a b = true <-> a = b.
Proof.
  revert b. induction a as [|x a IH]; intros [|y b]; cbn;
    try (split; [discriminate | discriminate]); [tauto|].
  rewrite andb_true_iff, Z.eqb_eq, IH. split.
  - intros [-> ->]. reflexivity.
  - intros H. inversion H. tauto.
Qed.


Lemma replace_absent (old new s : str) :
  str_contains old s = false -> str_replace s old new = s.
Proof.
  unfold str_replace. induction s as [|c r IH]; [reflexivity|].
  cbn [str_contains replace_from]. intros H.
  apply orb_false_elim in H as [Hp Hc]. rewrite Hp. f_equal. now apply IH.
Qed.



(** X21: when ".bin" does not occur in the input path, the derived report
    path is the input path followed by "_analysis.html". *)
Theorem report_path_without_bin (nbins : Z) (bin_path : str) :
  str_contains (str_lit ".bin") bin_path = false ->
  report_path None nbins bin_path = bin_path ++ REPORT_SUFFIX.
Proof.
  intros H. unfold report_path. cbv zeta.
  rewrite (replace_absent _ _ _ H).
  now rewrite (proj2 (str_eqb_eq bin_path bin_path) eq_refl).
Qed.

Lemma report_path_without_bin_witness :
  report_path None 1 (str_lit "firmware.img")
  = str_lit "firmware.img_analysis.html".
Proof.
  exact (report_path_without_bin 1 (str_lit "firmware.img") eq_refl).
Defined.

Lemma str_prefix_app (sub s t : str) :
  str_prefix sub s = true -> str_prefix sub (s ++ t) = true.
Proof.
  revert s. induction sub as [|x sub IH]; intros [|y s]; cbn;
    try reflexivity; try discriminate.
  rewrite !andb_true_iff. intros [Hx Hs]. split; [exact Hx | now apply IH].
Qed.

(** ".bin" does not overlap itself: a match in [a ++ ".bin" ++ b] that
    starts inside a non-empty [a] lies within [a]. *)
Lemma bin_prefix_straddle (a b : str) :
  a <> [] ->
  str_prefix (str_lit ".bin") a = false ->
  str_prefix (str_lit ".bin") (a ++ str_lit ".bin" ++ b) = false.
Proof.
  intros Hne H. change (str_lit ".bin") with [46; 98; 105; 110] in *.
  destruct a as [|c1 [|c2 [|c3 [|c4 r]]]]; [congruence| | | |].
  - cbn. now rewrite andb_false_r.
  - cbn. now rewrite !andb_false_r.
  - cbn. now rewrite !andb_false_r.
  - cbn [app str_prefix] in *. exact H.
Qed.

Lemma replace_bin_app (new a b : str) :
  str_contains (str_lit ".bin") a = false ->
  str_replace (a ++ str_lit ".bin" ++ b) (str_lit ".bin") new
  = a ++ new ++ str_replace b (str_lit ".bin") new.
Proof.
  unfold str_replace. induction a as [|c r IH]; intros H.
  - change (str_lit ".bin") with [46; 98; 105; 110]. reflexivity.
  - cbn [str_contains] in H. apply orb_false_elim in H as [Hp Hc].
    change ((c :: r) ++ str_lit ".bin" ++ b)
      with (c :: (r ++ str_lit ".bin" ++ b)).
    cbn [replace_from].
    change (c :: (r ++ str_lit ".bin" ++ b))
      with ((c :: r) ++ str_lit ".bin" ++ b).
    rewrite (bin_prefix_straddle (c :: r) b) by (congruence || exact Hp).
    cbn [app]. f_equal. now apply IH.
Qed.

(** X22: for an input path [a ++ ".bin" ++ b] whose stem [a] holds no
    ".bin", the derived report path is [a ++ "_analysis.html"] followed by
    [b] with every further ".bin" replaced as well: the replacement is not
    limited to the extension, so a ".bin" in a directory name changes the
    directory of the report. *)
Theorem report_path_with_bin (nbins : Z) (a b : str) :
  str_contains (str_lit ".bin") a = false ->
  report_path None nbins (a ++ str_lit ".bin" ++ b)
  = a ++ REPORT_SUFFIX ++ str_replace b (str_lit ".bin") REPORT_SUFFIX.
Proof.
  intros H. unfold report_path. cbv zeta.
  rewrite (replace_bin_app _ _ _ H).
  destruct (str_eqb _ _) eqn:E; [|reflexivity].
  apply str_eqb_eq, app_inv_head in E.
  change (str_lit ".bin") with [46; 98; 105; 110] in E.
  change REPORT_SUFFIX with (95 :: tl REPORT_SUFFIX) in E.
  cbn [app] in E. apply (f_equal (@hd Z 0)) in E. discriminate E.
Qed.

Lemma report_path_with_bin_witness :
  report_path None 2 (str_lit "builds.bin/fw.bin")
  = str_lit "builds_analysis.html/fw_analysis.html".
Proof.
  exact (report_path_with_bin 2 (str_lit "builds") (str_lit "/fw.bin")
           eq_refl).
Defined.

(** ** Formatted numbers *)

Lemma decimal_digit_chars (ds : list Z) (d a : Z) :
  Ref.decimal (map digit_char (ds ++ [d])) a
  = 10 * Ref.decimal (map digit_char ds) a + (digit_char d - 48).
Proof.
  revert a. induction ds as [|x ds IH]; intros a; cbn [app map Ref.decimal].
  - reflexivity.
  - apply IH.
Qed.

(** With enough fuel, [digits_of] puts in front of [acc] the decimal
    digits of [n], whose value is [n]. *)
Lemma digits_of_value (fuel : nat) (n : Z) (acc : list Z) :
  0 <= n < 2 ^ Z.of_nat fuel ->
  exists ds,
    digits_of fuel 10 n acc = ds ++ acc /\
    Forall (fun d => 0 <= d < 10) ds /\
    Ref.decimal (map digit_char ds) 0 = n.
Proof.
  revert n acc. induction fuel as [|f IH]; intros n acc Hn.
  - exists []. change (2 ^ Z.of_nat 0) with 1 in Hn.
    split; [reflexivity|]. split; [constructor|]. cbn. lia.
  - cbn [digits_of].
    assert (Hm : 0 <= n mod 10 < 10) by (apply Z.mod_pos_bound; lia).
    assert (Hc : digit_char (n mod 10) - 48 = n mod 10).
    { unfold digit_char. destruct (Z.ltb_spec (n mod 10) 10); lia. }
    destruct (Z.eqb_spec (n / 10) 0) as [E|E].
    + exists [n mod 10]. split; [reflexivity|].
      split; [constructor; [exact Hm|constructor]|].
      cbn [map Ref.decimal]. rewrite Hc.
      pose proof (Z.div_mod n 10). lia.
    + destruct (IH (n / 10) (n mod 10 :: acc)) as (ds & Hd & Hf & Hv).
      { rewrite Nat2Z.inj_succ, Z.pow_succ_r in Hn by lia.
        split; [apply Z.div_pos; lia|].
        apply Z.div_lt_upper_bound; lia. }
      exists (ds ++ [n mod 10]). split; [|split].
      * rewrite Hd, <- app_assoc. reflexivity.
      * apply Forall_app. split; [exact Hf|]. constructor; [exact Hm|constructor].
      * rewrite decimal_digit_chars, Hv, Hc.
        pose proof (Z.div_mod n 10). lia.
Qed.

Lemma nat_digits_value (n : Z) :
  0 <= n ->
  Forall (fun d => 0 <= d < 10) (nat_digits 10 n) /\
  Ref.decimal (map digit_char (nat_digits 10 n)) 0 = n.
Proof.
  intros Hn. unfold nat_digits.
  destruct (digits_of_value (S (Z.to_nat (Z.log2 n))) n []) as (ds & Hd & Hf & Hv).
  - rewrite Nat2Z.inj_succ, Z2Nat.id by apply Z.log2_nonneg.
    destruct (Z.eq_dec n 0) as [->|Hne]; [cbn; lia|].
    split; [exact Hn|]. apply Z.log2_spec. lia.
  - rewrite Hd, app_nil_r. split; assumption.
Qed.

Lemma group3_unfold (a b c d : Z) (more : list Z) :
  group3 (a :: b :: c :: d :: more) = a :: b :: c :: 44 :: group3 (d :: more).
Proof. reflexivity. Qed.

(** Grouping adds commas and nothing else. *)
Lemma group3_filter (l : list Z) :
  filter (fun c => negb (c =? 44)) (group3 l)
  = filter (fun c => negb (c =? 44)) l.
Proof.
  remember (List.length l) as k eqn:Hk.
  assert (Hle : (List.length l <= k)%nat) by lia. clear Hk.
  revert l Hle. induction k as [|k IH]; intros l Hle.
  - destruct l; [reflexivity | cbn in Hle; lia].
  - destruct l as [|a [|b [|c [|d more]]]]; try reflexivity.
    rewrite group3_unfold.
    change (a :: b :: c :: 44 :: group3 (d :: more))
      with ([a; b; c] ++ [44] ++ group3 (d :: more)).
    change (a :: b :: c :: d :: more) with ([a; b; c] ++ d :: more).
    rewrite !filter_app. f_equal.
    change (filter (fun c0 => negb (c0 =? 44)) [44]) with (@nil Z).
    cbn [app]. apply IH. cbn [List.length] in *. lia.
Qed.

Lemma digit_chars_filter (ds : list Z) :
  Forall (fun d => 0 <= d < 10) ds ->
  filter (fun c => negb (c =? 44)) (map digit_char ds) = map digit_char ds /\
  forall c, In c (map digit_char ds) -> 48 <= c <= 57.
Proof.
  induction 1 as [|d ds Hd Hf [IH1 IH2]]; [split; [reflexivity | intros c []]|].
  assert (Hc : digit_char d = 48 + d).
  { unfold digit_char. destruct (Z.ltb_spec d 10); lia. }
  split.
  - cbn [map filter]. rewrite Hc.
    destruct (Z.eqb_spec (48 + d) 44); [lia|]. cbn [negb]. now rewrite IH1.
  - intros c [<-|Hin]; [lia | now apply IH2].
Qed.

Lemma read_int_unsigned (s : str) :
  (forall c, In c s -> c <> 45) ->
  read_int s = Ref.decimal (filter (fun c => negb (c =? 44)) s) 0.
Proof.
  intros H. destruct s as [|c r]; [reflexivity|].
  unfold read_int. destruct (Z.eqb_spec c 45) as [E|E]; [|reflexivity].
  exfalso. apply (H c); [now left | exact E].
Qed.

(** The grouped digits of a non-negative number read back as it. *)
Lemma grouped_digits_value (n : Z) :
  0 <= n ->
  let s := rev (group3 (rev (map digit_char (nat_digits 10 n)))) in
  (forall c, In c s -> c <> 45) /\
  Ref.decimal (filter (fun c => negb (c =? 44)) s) 0 = n.
Proof.
  intros Hn s. subst s.
  destruct (nat_digits_value n Hn) as [Hf Hv].
  destruct (digit_chars_filter _ Hf) as [Hk Hr].
  assert (Hfl : filter (fun c => negb (c =? 44))
                  (rev (group3 (rev (map digit_char (nat_digits 10 n)))))
                = map digit_char (nat_digits 10 n)).
  { rewrite filter_rev, group3_filter, <- filter_rev, rev_involutive.
    exact Hk. }
  split.
  - intros c Hin E.
    assert (Hin' : In c (filter (fun c => negb (c =? 44))
                    (rev (group3 (rev (map digit_char (nat_digits 10 n))))))).
    { apply filter_In. split; [exact Hin|]. subst c. reflexivity. }
    rewrite Hfl in Hin'. apply Hr in Hin'. lia.
  - rewrite Hfl. exact Hv.
Qed.

(** X23: the thousands-separated text that [derive_crystal] puts in its
    note for an unknown frequency, and [main] in its first line for the
    file size, reads back as the number it was made from, negative numbers
    included: grouping loses or reorders no digit. *)
Theorem format_comma_reads_back (n : Z) : read_int (format_comma n) = n.
Proof.
  unfold format_comma, sign_of.
  destruct (Z.ltb_spec n 0) as [Hneg|Hpos].
  - destruct (grouped_digits_value (Z.abs n)) as [_ Hv]; [lia|].
    cbn [app]. unfold read_int. change (45 =? 45) with true. cbv iota.
    cbv zeta in Hv. rewrite Hv. lia.
  - destruct (grouped_digits_value (Z.abs n)) as [Hs Hv]; [lia|].
    cbn [app]. cbv zeta in Hs, Hv.
    rewrite (read_int_unsigned _ Hs), Hv. lia.
Qed.
